(** * xmlutil.BuildXML: the XML tree builder of internal/protocol/xml/xmlutil

    A shallow embedding of [build.go] (package [xmlutil]) and the properties
    of its recursive tree builder.

    Conventions of the embedding
    - Go strings are byte strings: [string] (a list of 8-bit [ascii]).
    - A [reflect.Value] is a finite tree [Value]; pointers are the
      constructors [VNil] and [VPtr], so the value graph is acyclic.
    - A [*XMLNode] that the builder mutates in place is passed in and
      returned: every builder function returns the final state of the node
      it was given together with the final state of the [xmlBuilder].
    - A Go [error] result is [option error]; a run-time panic of the
      [reflect] package is the result [Panicked].
    - The namespace table [map[string]string] is a [gmap string string];
      the children of a node, which the package keeps in groups, are an
      association list in the order in which the groups were created.
    - The functions of the Go standard library that the builder calls
      ([reflect.StructTag.Get], [strconv], [encoding/base64], [time]) are
      embedded after their documented behaviour.
    - [buildValue], [buildStruct] and [buildList] are mutually recursive in
      the source.  [buildStruct] and [buildList] take the recursive call as
      their first argument and [buildValue] ties the knot by recursion on a
      bound [fuel] on the nesting depth; [buildValue_total] shows that any
      bound above [depth value] is enough. *)

From Stdlib Require Import ZArith Ascii DecimalString DecimalZ DecimalFacts.
From stdpp Require Import gmap strings list.

Open Scope string_scope.
Open Scope list_scope.

Set Warnings "-register-all".

(** ** Bytes *)

Definition code (c : ascii) : Z := Z.of_N (Ascii.N_of_ascii c).
Definition chr (z : Z) : ascii := Ascii.ascii_of_N (Z.to_N z).

Definition nonempty (s : string) : bool := negb (String.eqb s "").

Fixpoint bytes_of (s : string) : list Z :=
  match s with
  | EmptyString => []
  | String c s' => code c :: bytes_of s'
  end.

Fixpoint string_of (l : list Z) : string :=
  match l with
  | [] => EmptyString
  | z :: l' => String (chr z) (string_of l')
  end.

(** ** reflect.StructTag

    [reflect.StructTag.Get] belongs to the Go standard library.  It is
    embedded here as the scanner that [StructTag.Lookup] implements, one
    byte at a time, together with [strconv.Unquote] for the quoted value. *)

Module utf8.

Definition RuneError : Z := 65533.

(** [utf8.DecodeRuneInString]: the first rune of [p] and its width. *)
Definition DecodeRune (p : list Z) : Z * nat :=
  let cont (b : Z) := (128 <=? b)%Z && (b <=? 191)%Z in
  match p with
  | [] => (RuneError, 0)
  | p0 :: rest =>
    if (p0 <? 128)%Z then (p0, 1)
    else if (p0 <? 194)%Z || (244 <? p0)%Z then (RuneError, 1)
    else
      let sz := if (p0 <? 224)%Z then 2 else if (p0 <? 240)%Z then 3 else 4 in
      let lo := if (p0 =? 224)%Z then 160%Z else if (p0 =? 240)%Z then 144%Z else 128%Z in
      let hi := if (p0 =? 237)%Z then 159%Z else if (p0 =? 244)%Z then 143%Z else 191%Z in
      if Nat.ltb (List.length p) sz then (RuneError, 1)
      else
        match rest with
        | b1 :: rest1 =>
          if (b1 <? lo)%Z || (hi <? b1)%Z then (RuneError, 1)
          else if Nat.leb sz 2
          then (Z.lor (Z.shiftl (Z.land p0 31) 6) (Z.land b1 63), 2)
          else
            match rest1 with
            | b2 :: rest2 =>
              if negb (cont b2) then (RuneError, 1)
              else if Nat.leb sz 3
              then (Z.lor (Z.lor (Z.shiftl (Z.land p0 15) 12)
                                 (Z.shiftl (Z.land b1 63) 6)) (Z.land b2 63), 3)
              else
                match rest2 with
                | b3 :: _ =>
                  if negb (cont b3) then (RuneError, 1)
                  else (Z.lor (Z.lor (Z.lor (Z.shiftl (Z.land p0 7) 18)
                                            (Z.shiftl (Z.land b1 63) 12))
                                     (Z.shiftl (Z.land b2 63) 6)) (Z.land b3 63), 4)
                | [] => (RuneError, 1)
                end
            | [] => (RuneError, 1)
            end
        | [] => (RuneError, 1)
        end
  end.

Definition ValidRune (r : Z) : bool :=
  ((0 <=? r)%Z && (r <? 55296)%Z) || ((57343 <? r)%Z && (r <=? 1114111)%Z).

(** [utf8.AppendRune]. *)
Definition EncodeRune (r : Z) : list Z :=
  let r := if ValidRune r then r else RuneError in
  if (r <=? 127)%Z then [r]
  else if (r <=? 2047)%Z then
    [Z.lor 192 (Z.shiftr r 6); Z.lor 128 (Z.land r 63)]
  else if (r <=? 65535)%Z then
    [Z.lor 224 (Z.shiftr r 12); Z.lor 128 (Z.land (Z.shiftr r 6) 63);
     Z.lor 128 (Z.land r 63)]
  else
    [Z.lor 240 (Z.shiftr r 18); Z.lor 128 (Z.land (Z.shiftr r 12) 63);
     Z.lor 128 (Z.land (Z.shiftr r 6) 63); Z.lor 128 (Z.land r 63)].

End utf8.

Module strconv.

Definition unhex (b : Z) : option Z :=
  if (48 <=? b)%Z && (b <=? 57)%Z then Some (b - 48)%Z
  else if (97 <=? b)%Z && (b <=? 102)%Z then Some (b - 97 + 10)%Z
  else if (65 <=? b)%Z && (b <=? 70)%Z then Some (b - 65 + 10)%Z
  else None.

Fixpoint hexval (acc : Z) (ds : list Z) : option Z :=
  match ds with
  | [] => Some acc
  | d :: ds' =>
    match unhex d with
    | Some x => hexval (Z.lor (Z.shiftl acc 4) x) ds'
    | None => None
    end
  end.

Fixpoint octval (acc : Z) (ds : list Z) : option Z :=
  match ds with
  | [] => Some acc
  | d :: ds' =>
    if (48 <=? d)%Z && (d <=? 55)%Z
    then octval (Z.lor (Z.shiftl acc 3) (d - 48)) ds'
    else None
  end.

(** [strconv.UnquoteChar] for a double-quoted literal: the bytes the first
    (possibly escaped) character of [s] contributes, and the tail. *)
Definition UnquoteChar (s : list Z) : option (list Z * list Z) :=
  match s with
  | [] => None
  | c :: s1 =>
    if (c =? 34)%Z then None
    else if (128 <=? c)%Z then
      let '(r, size) := utf8.DecodeRune s in
      Some (utf8.EncodeRune r, drop size s)
    else if negb (c =? 92)%Z then Some ([c], s1)
    else
      match s1 with
      | [] => None
      | e :: s2 =>
        let simple (v : Z) := Some ([v], s2) in
        let hex (n : nat) (multibyte : bool) :=
          if Nat.ltb (List.length s2) n then None
          else
            match hexval 0 (take n s2) with
            | None => None
            | Some v =>
              if multibyte then
                if utf8.ValidRune v
                then Some (if (v <? 128)%Z then [v] else utf8.EncodeRune v,
                           drop n s2)
                else None
              else Some ([v], drop n s2)
            end in
        if (e =? 97)%Z then simple 7%Z
        else if (e =? 98)%Z then simple 8%Z
        else if (e =? 102)%Z then simple 12%Z
        else if (e =? 110)%Z then simple 10%Z
        else if (e =? 114)%Z then simple 13%Z
        else if (e =? 116)%Z then simple 9%Z
        else if (e =? 118)%Z then simple 11%Z
        else if (e =? 120)%Z then hex 2 false
        else if (e =? 117)%Z then hex 4 true
        else if (e =? 85)%Z then hex 8 true
        else if (48 <=? e)%Z && (e <=? 55)%Z then
          if Nat.ltb (List.length s2) 2 then None
          else
            match octval (e - 48) (take 2 s2) with
            | Some v => if (255 <? v)%Z then None else Some ([v], drop 2 s2)
            | None => None
            end
        else if (e =? 92)%Z then simple 92%Z
        else if (e =? 34)%Z then simple 34%Z
        else None
      end
  end.

Fixpoint unquote_loop (n : nat) (s : list Z) : option (list Z) :=
  match s with
  | [] => Some []
  | c :: _ =>
    match n with
    | O => None
    | S n' =>
      if (c =? 10)%Z then None
      else
        match UnquoteChar s with
        | None => None
        | Some (out, tail) =>
          match unquote_loop n' tail with
          | Some rest => Some (out ++ rest)
          | None => None
          end
        end
    end
  end.

(** [strconv.Unquote] of the double-quoted literal whose content (the
    bytes between the quotes) is [q]; [None] is [ErrSyntax]. *)
Definition Unquote (q : string) : option string :=
  match unquote_loop (String.length q) (bytes_of q) with
  | Some out => Some (string_of out)
  | None => None
  end.

(** [strconv.FormatInt(i, 10)] and [strconv.Itoa]. *)
Definition FormatInt (i : Z) : string := NilZero.string_of_int (Z.to_int i).

Definition FormatBool (b : bool) : string := if b then "true" else "false".

End strconv.

Module StructTag.

(** Where the scanner of [Lookup] stands. *)
Inductive scan : Type :=
| AtPair                                  (* between pairs, skipping spaces *)
| InName (name : string)                  (* scanning to the colon *)
| AfterColon (name : string)              (* the opening quote must follow *)
| InValue (name : string) (q : string)    (* scanning the quoted string *)
| Escaped (name : string) (q : string)    (* the byte after a backslash *)
| Stop (r : option string).               (* returned a value, or break *)

Definition snoc (s : string) (c : ascii) : string := s +:+ String c "".

Definition name_byte (c : ascii) : bool :=
  let b := code c in
  (32 <? b)%Z && negb (b =? 58)%Z && negb (b =? 34)%Z && negb (b =? 127)%Z.

Definition step (key : string) (st : scan) (c : ascii) : scan :=
  match st with
  | AtPair =>
    if (code c =? 32)%Z then AtPair
    else if name_byte c then InName (String c "")
    else Stop None
  | InName name =>
    if name_byte c then InName (snoc name c)
    else if (code c =? 58)%Z then AfterColon name
    else Stop None
  | AfterColon name =>
    if (code c =? 34)%Z then InValue name "" else Stop None
  | InValue name q =>
    if (code c =? 34)%Z then
      if String.eqb key name then Stop (strconv.Unquote q) else AtPair
    else if (code c =? 92)%Z then Escaped name (snoc q c)
    else InValue name (snoc q c)
  | Escaped name q => InValue name (snoc q c)
  | Stop r => Stop r
  end.

Fixpoint run (key : string) (st : scan) (tag : string) : scan :=
  match tag with
  | EmptyString => st
  | String c tag' => run key (step key st c) tag'
  end.

(** [tag.Lookup(key)]: running off the end of the tag is the loop's
    exit or one of its [break]s, both of which report "not found". *)
Definition Lookup (tag key : string) : option string :=
  match run key AtPair tag with
  | Stop r => r
  | _ => None
  end.

(** [tag.Get(key)]. *)
Definition Get (tag key : string) : string :=
  match Lookup tag key with
  | Some v => v
  | None => ""
  end.

(** The tag is a complete sequence of [name:"value"] pairs, none of
    which is named [key]: the scanner reaches its end between pairs. *)
Definition lacks (tag key : string) : Prop := run key AtPair tag = AtPair.

End StructTag.

(** Writing tags: [kv k v] is the pair [k:QvQ] where Q is the double
    quote (byte 34). *)
Definition dq : string := String (chr 34) "".
Definition kv (k v : string) : string := k +:+ ":" +:+ dq +:+ v +:+ dq.

(** ** encoding/base64 and time *)

Module base64.

Definition alphabet : string :=
  "ABCDEFGHIJKLMNOPQRSTUVWXYZabcdefghijklmnopqrstuvwxyz0123456789+/".

Definition enc (i : Z) : ascii :=
  match String.get (Z.to_nat i) alphabet with
  | Some c => c
  | None => chr 61
  end.

Definition sextet (v : Z) (shift : Z) : ascii :=
  enc (Z.land (Z.shiftr v shift) 63).

(** [base64.StdEncoding.EncodeToString]: three bytes give four
    characters, and the last group is padded with [=] (byte 61). *)
Fixpoint EncodeToString (src : list Z) : string :=
  match src with
  | [] => ""
  | [b0] =>
    let v := Z.shiftl b0 16 in
    String (sextet v 18) (String (sextet v 12) (String (chr 61) (String (chr 61) "")))
  | [b0; b1] =>
    let v := Z.lor (Z.shiftl b0 16) (Z.shiftl b1 8) in
    String (sextet v 18) (String (sextet v 12) (String (sextet v 6) (String (chr 61) "")))
  | b0 :: b1 :: b2 :: rest =>
    let v := Z.lor (Z.lor (Z.shiftl b0 16) (Z.shiftl b1 8)) b2 in
    String (sextet v 18) (String (sextet v 12) (String (sextet v 6)
      (String (sextet v 0) (EncodeToString rest))))
  end.

End base64.

Module time.

(** A [time.Time], by the calendar fields of [t.UTC()]. *)
Record Time : Type := Date {
  year : Z; month : Z; day : Z; hour : Z; minute : Z; second : Z }.

Fixpoint zeros (n : nat) : string :=
  match n with
  | O => ""
  | S n' => String (chr 48) (zeros n')
  end.

(** [appendInt(b, x, width)]: decimal, zero-padded to [width] digits. *)
Definition appendInt (x : Z) (width : nat) : string :=
  let digits := strconv.FormatInt (Z.abs x) in
  (if (x <? 0)%Z then "-" else "")
  +:+ zeros (width - String.length digits) +:+ digits.

(** [t.UTC().Format(ISO8601UTC)] for the layout [2006-01-02T15:04:05Z]. *)
Definition FormatISO8601UTC (t : Time) : string :=
  appendInt (year t) 4 +:+ "-" +:+ appendInt (month t) 2 +:+ "-"
  +:+ appendInt (day t) 2 +:+ "T" +:+ appendInt (hour t) 2 +:+ ":"
  +:+ appendInt (minute t) 2 +:+ ":" +:+ appendInt (second t) 2 +:+ "Z".

End time.

(** ** The output tree *)

Module xml.
Record Name : Type := mkName { Space : string; Local : string }.
Record Attr : Type := mkAttr { AttrName : Name; Value : string }.
End xml.

(** Modelled from the spec: the node type [XMLNode] of this package is
    declared outside [build.go].  The spec gives a node a qualified name,
    an ordered list of child nodes (grouped, insertion order preserved), an
    ordered list of name/value attribute pairs and optional text content.
    [BuildXML] ranges over [Children] and then over each of its entries,
    so the children are kept in groups; a group holds the children of one
    local name. *)
Inductive XMLNode : Type := mkXMLNode {
  Name : xml.Name;
  Children : list (string * list XMLNode);
  Text : string;
  Attr : list xml.Attr }.

(** Modelled from the spec: [NewXMLElement(name)], an element with that
    name and no children, text or attributes. *)
Definition NewXMLElement (name : xml.Name) : XMLNode :=
  {| Name := name; Children := []; Text := ""; Attr := [] |}.

Fixpoint addToGroup (key : string) (child : XMLNode)
    (groups : list (string * list XMLNode)) : list (string * list XMLNode) :=
  match groups with
  | [] => [(key, [child])]
  | (k, cs) :: rest =>
    if String.eqb k key then (k, cs ++ [child]) :: rest
    else (k, cs) :: addToGroup key child rest
  end.

(** Modelled from the spec: [n.AddChild(child)] appends [child] after the
    children already in the group of its local name. *)
Definition AddChild (n child : XMLNode) : XMLNode :=
  {| Name := Name n;
     Children := addToGroup (xml.Local (Name child)) child (Children n);
     Text := Text n;
     Attr := Attr n |}.

(** [current.Attr = append(current.Attr, attr)]. *)
Definition appendAttr (n : XMLNode) (attr : xml.Attr) : XMLNode :=
  {| Name := Name n; Children := Children n; Text := Text n;
     Attr := Attr n ++ [attr] |}.

(** The children of [n] in the group [key], in insertion order. *)
Fixpoint group (key : string) (groups : list (string * list XMLNode)) : list XMLNode :=
  match groups with
  | [] => []
  | (k, cs) :: rest => if String.eqb k key then cs else group key rest
  end.

Definition childrenNamed (n : XMLNode) (key : string) : list XMLNode :=
  group key (Children n).

(** ** reflect.Value *)

Inductive IntType : Type :=
| int | int8 | int16 | int32 | int64
| uint | uint8 | uint16 | uint32 | uint64.

Record StructField : Type := mkField { FieldName : string; FieldTag : string }.

(** The values the builder can be handed.  A struct is given by the name
    of its type and its declared fields, in order, each with its value;
    slices, byte slices and maps are of unnamed types.  [VInteger t i] is
    the integer [i] of type [t], within the range of [t].  [VFloat64] and
    [VFloat32] carry the text [strconv.FormatFloat(x, 'f', -1, bits)] of
    the number they stand for.  [VOther] is a value of any other type
    whose kind is none of pointer, struct, slice, map, string, array,
    channel and interface. *)
Inductive Value : Type :=
| VInvalid                                   (* the zero reflect.Value *)
| VNil                                       (* a nil pointer *)
| VPtr (target : Value)
| VStruct (tname : string) (fields : list (StructField * Value))
| VSlice (items : list Value)                (* a slice other than []byte *)
| VBytes (bs : list Z)                       (* []byte *)
| VMap (entries : list (Value * Value))
| VString (s : string)
| VBool (x : bool)
| VInteger (t : IntType) (i : Z)
| VFloat64 (text : string)
| VFloat32 (text : string)
| VTime (t : time.Time)
| VOther (tname : string).

Inductive Kind : Type :=
| Invalid | Ptr | Struct | Slice | Map | String_ | Bool | Integer | Float | OtherKind.

Definition KindOf (value : Value) : Kind :=
  match value with
  | VInvalid => Invalid
  | VNil | VPtr _ => Ptr
  | VStruct _ _ | VTime _ => Struct
  | VSlice _ | VBytes _ => Slice
  | VMap _ => Map
  | VString _ => String_
  | VBool _ => Bool
  | VInteger _ _ => Integer
  | VFloat64 _ | VFloat32 _ => Float
  | VOther _ => OtherKind
  end.

Definition IsValid (value : Value) : bool :=
  match value with
  | VInvalid => false
  | _ => true
  end.

Definition IntTypeName (t : IntType) : string :=
  match t with
  | int => "int" | int8 => "int8" | int16 => "int16" | int32 => "int32"
  | int64 => "int64" | uint => "uint" | uint8 => "uint8" | uint16 => "uint16"
  | uint32 => "uint32" | uint64 => "uint64"
  end.

(** [value.Type().Name()]: empty for an unnamed type. *)
Definition TypeName (value : Value) : string :=
  match value with
  | VStruct tname _ => tname
  | VString _ => "string"
  | VBool _ => "bool"
  | VInteger t _ => IntTypeName t
  | VFloat64 _ => "float64"
  | VFloat32 _ => "float32"
  | VTime _ => "Time"
  | VOther tname => tname
  | _ => ""
  end.

(** The fields of a struct value, in declaration order; [None] when the
    value is no struct ([NumField] and [Type().FieldByName] panic).  The
    three fields of [time.Time] are unexported. *)
Definition fieldsOf (value : Value) : option (list (StructField * Value)) :=
  match value with
  | VStruct _ fields => Some fields
  | VTime _ =>
    Some [(mkField "wall" "", VInteger uint64 0);
          (mkField "ext" "", VInteger int64 0);
          (mkField "loc" "", VNil)]
  | _ => None
  end.

Definition NumField (value : Value) : option nat :=
  match fieldsOf value with
  | Some fields => Some (length fields)
  | None => None
  end.

(** [t.Field(i)] paired with [value.Field(i)]. *)
Definition Field (value : Value) (i : nat) : option (StructField * Value) :=
  match fieldsOf value with
  | Some fields => fields !! i
  | None => None
  end.

Fixpoint findField (name : string) (fields : list (StructField * Value))
    : option (StructField * Value) :=
  match fields with
  | [] => None
  | f :: rest => if String.eqb (FieldName f.1) name then Some f else findField name rest
  end.

(** [value.Type().FieldByName(name)] over the declared fields of the
    struct: [None] is the panic on a type that is no struct, [Some None]
    the result [ok = false]. *)
Definition TypeFieldByName (value : Value) (name : string) : option (option StructField) :=
  match fieldsOf value with
  | Some fields => Some (fst <$> findField name fields)
  | None => None
  end.

(** [value.FieldByName(name)]: the zero Value when there is no such field. *)
Definition FieldByName (value : Value) (name : string) : option Value :=
  match fieldsOf value with
  | Some fields =>
    Some (match findField name fields with Some f => f.2 | None => VInvalid end)
  | None => None
  end.

(** [value.Len()]; [None] is its panic. *)
Definition Len (value : Value) : option nat :=
  match value with
  | VSlice items => Some (length items)
  | VBytes bs => Some (length bs)
  | VMap entries => Some (length entries)
  | VString s => Some (String.length s)
  | _ => None
  end.

(** [value.Index(i)] for [i < value.Len()]; [None] is its panic. *)
Definition Index (value : Value) (i : nat) : option Value :=
  match value with
  | VSlice items => items !! i
  | VBytes bs => VInteger uint8 <$> bs !! i
  | VString s => VInteger uint8 <$> bytes_of s !! i
  | _ => None
  end.

(** ** build.go *)

Fixpoint elemOf (value : Value) : Value :=
  match value with
  | VPtr target => elemOf target
  | VNil => VInvalid
  | _ => value
  end.

Record xmlBuilder : Type := mkBuilder { namespaces : gmap string string }.

(** The two errors the builder makes, named as in the spec's taxonomy:
    [UnsupportedContainerKind] is the error of [buildMap],
    [UnsupportedScalarType] the one of [buildScalar], which carries the
    [locationName], the value and its type name. *)
Inductive error : Type :=
| UnsupportedContainerKind
| UnsupportedScalarType (param : string) (value : Value) (tname : string).

(** What a call leaves behind: the state [s] it reached and the [error]
    it returned, or a panic, or an exhausted recursion bound. *)
Inductive Outcome (S : Type) : Type :=
| Returned (s : S) (err : option error)
| Panicked
| OutOfFuel.
Arguments Returned {S} s err.
Arguments Panicked {S}.
Arguments OutOfFuel {S}.

Definition Result : Type := Outcome (XMLNode * xmlBuilder).

(** A [for] loop over [xs] whose body may return early. *)
Fixpoint forEach {A S : Type} (body : A -> S -> Outcome S) (xs : list A) (s : S)
    : Outcome S :=
  match xs with
  | [] => Returned s None
  | x :: xs' =>
    match body x s with
    | Returned s' None => forEach body xs' s'
    | r => r
    end
  end.

(** [for i := 0; i < n; i++]. *)
Definition forRange {S : Type} (n : nat) (body : nat -> S -> Outcome S) (s : S)
    : Outcome S :=
  forEach body (seq 0 n) s.

(** [strings.ToLower] of the one-byte string [c]: an ASCII capital is
    lowered, any other ASCII byte is kept, and a byte that is no UTF-8
    on its own becomes the replacement character (so a field whose name
    starts with such a byte counts as exported). *)
Definition ToLower1 (c : ascii) : string :=
  let x := code c in
  if (65 <=? x)%Z && (x <=? 90)%Z then String (chr (x + 32)) ""
  else if (x <? 128)%Z then String c ""
  else string_of (utf8.EncodeRune utf8.RuneError).

(** The scalar type switch of [buildScalar]: the text of a value of one
    of the listed types, [None] in the [default] case. *)
Definition scalarText (value : Value) : option string :=
  match value with
  | VString converted => Some converted
  | VBytes converted => Some (base64.EncodeToString converted)
  | VBool converted => Some (strconv.FormatBool converted)
  | VInteger int64 converted => Some (strconv.FormatInt converted)
  | VInteger int converted => Some (strconv.FormatInt converted)
  | VFloat64 text => Some text
  | VFloat32 text => Some text
  | VTime converted => Some (time.FormatISO8601UTC converted)
  | _ => None
  end.

Definition buildScalar (b : xmlBuilder) (value : Value) (current : XMLNode)
    (tag : string) : Result :=
  if negb (IsValid value) then Panicked          (* value.Interface() *)
  else
    match scalarText value with
    | None =>
      Returned (current, b)
        (Some (UnsupportedScalarType (StructTag.Get tag "locationName") value
                                     (TypeName value)))
    | Some str =>
      let xname := xml.mkName "" (StructTag.Get tag "locationName") in
      if nonempty (StructTag.Get tag "xmlAttribute") then
        let attr := xml.mkAttr xname str in
        Returned (appendAttr current attr, b) None
      else
        Returned (AddChild current (mkXMLNode xname [] str []), b) None
    end.

Definition buildMap (b : xmlBuilder) (value : Value) (current : XMLNode)
    (tag : string) : Result :=
  Returned (current, b) (Some UnsupportedContainerKind).

(** The name of the items of a list that is not flattened. *)
Definition itemName (tag : string) : string :=
  if String.eqb (StructTag.Get tag "locationNameList") ""
  then "member"
  else StructTag.Get tag "locationNameList".

Section Recursion.

(** The recursive call [b.buildValue(value, current, tag)]. *)
Variable buildValue : xmlBuilder -> Value -> XMLNode -> string -> Result.

(** One item of a list: [child] is attached to [parent] before the item
    is built into it, so [parent] holds the node the build leaves, also
    when the build fails. *)
Definition buildItem (xname : xml.Name) (item : Value)
    (s : XMLNode * xmlBuilder) : Result :=
  let '(parent, b) := s in
  let child := NewXMLElement xname in
  match buildValue b item child "" with
  | Returned (child', b') err => Returned (AddChild parent child', b') err
  | r => r
  end.

(** [value.Index(i)], then the body of the loop. *)
Definition atIndex (value : Value) (body : Value -> XMLNode * xmlBuilder -> Result)
    (i : nat) (s : XMLNode * xmlBuilder) : Result :=
  match Index value i with
  | Some item => body item s
  | None => Panicked
  end.

Definition buildList (b : xmlBuilder) (value : Value) (current : XMLNode)
    (tag : string) : Result :=
  let flattened := nonempty (StructTag.Get tag "flattened") in
  let xname := xml.mkName "" (StructTag.Get tag "locationName") in
  match Len value with
  | None => Panicked
  | Some n =>
    if flattened then
      forRange n (atIndex value (buildItem xname)) (current, b)
    else
      let list := NewXMLElement xname in
      let iname := itemName tag in
      match forRange n (atIndex value (buildItem (xml.mkName "" iname))) (list, b) with
      | Returned (list', b') err => Returned (AddChild current list', b') err
      | r => r
      end
  end.

(** [strings.ToLower(c) == c] for [c := Name[0:1]]; [None] is the panic
    of the slice expression on an empty name. *)
Definition unexported (name : string) : option bool :=
  match name with
  | EmptyString => None
  | String c _ => Some (String.eqb (ToLower1 c) (String c ""))
  end.

(** The tag a member is built with: its own, with the field name as
    [locationName] when it has none. *)
Definition memberTag (field : StructField) : string :=
  let mTag := FieldTag field in
  let memberName := StructTag.Get mTag "locationName" in
  if String.eqb memberName ""
  then mTag +:+ " locationName:" +:+ dq +:+ FieldName field +:+ dq
  else mTag.

(** The body of the loop over the fields of a struct; the state is
    [child], the builder and [fieldAdded]. *)
Definition buildMember (f : StructField * Value)
    (s : XMLNode * xmlBuilder * bool) : Outcome (XMLNode * xmlBuilder * bool) :=
  let '(child, b, fieldAdded) := s in
  let '(field, fvalue) := f in
  match unexported (FieldName field) with
  | None => Panicked
  | Some true => Returned s None                (* ignore unexported fields *)
  | Some false =>
    let member := elemOf fvalue in
    if nonempty (StructTag.Get (FieldTag field) "location")
    then Returned s None                        (* skip non-body members *)
    else
      match buildValue b member child (memberTag field) with
      | Returned (child', b') None => Returned (child', b', true) None
      | Returned (child', b') (Some err) =>
        Returned (child', b', fieldAdded) (Some err)
      | Panicked => Panicked
      | OutOfFuel => OutOfFuel
      end
  end.

(** [t.Field(i)] and [value.Field(i)], then the body of the loop. *)
Definition buildField (value : Value) (i : nat)
    (s : XMLNode * xmlBuilder * bool) : Outcome (XMLNode * xmlBuilder * bool) :=
  match Field value i with
  | Some f => buildMember f s
  | None => Panicked
  end.

(** [buildStruct] from the creation of [child] on. *)
Definition buildMembers (b : xmlBuilder) (value : Value) (current : XMLNode)
    (tag : string) : Result :=
  let child := NewXMLElement (xml.mkName "" (StructTag.Get tag "locationName")) in
  let prefix := StructTag.Get tag "xmlPrefix" in
  let uri := StructTag.Get tag "xmlURI" in
  let '(child, b) :=
    if nonempty uri then
      if nonempty prefix then
        (appendAttr child (xml.mkAttr (xml.mkName "" ("xmlns:" +:+ prefix)) uri),
         mkBuilder (<[prefix := uri]> (namespaces b)))
      else (appendAttr child (xml.mkAttr (xml.mkName "" "xmlns") uri), b)
    else (child, b) in
  match NumField value with
  | None => Panicked
  | Some n =>
    match forRange n (buildField value) (child, b, false) with
    | Returned (child', b', fieldAdded) None =>
      if fieldAdded then Returned (AddChild current child', b') None
      else Returned (current, b') None
    | Returned (_, b', _) (Some err) => Returned (current, b') (Some err)
    | Panicked => Panicked
    | OutOfFuel => OutOfFuel
    end
  end.

Definition buildStruct (b : xmlBuilder) (value : Value) (current : XMLNode)
    (tag : string) : Result :=
  if negb (IsValid value) then Returned (current, b) None
  else
    let payload := StructTag.Get tag "payload" in
    if nonempty payload then
      match TypeFieldByName value payload, FieldByName value payload with
      | Some field, Some fvalue =>
        let tag := match field with Some f => FieldTag f | None => "" end in
        let value := elemOf fvalue in
        if negb (IsValid value) then Returned (current, b) None
        else buildMembers b value current tag
      | _, _ => Panicked
      end
    else buildMembers b value current tag.

End Recursion.

(** The node kind [t] that [buildValue] switches on: the [type] of the
    tag, or else the one inferred from the kind of the value. *)
Definition resolveType (tag : string) (value : Value) : string :=
  let t := StructTag.Get tag "type" in
  if String.eqb t "" then
    match KindOf value with
    | Struct => "structure"
    | Slice => "list"
    | Map => "map"
    | _ => t
    end
  else t.

Fixpoint buildValue (fuel : nat) (b : xmlBuilder) (value : Value)
    (current : XMLNode) (tag : string) {struct fuel} : Result :=
  match fuel with
  | O => OutOfFuel
  | S fuel' =>
    let value := elemOf value in
    if negb (IsValid value) then Returned (current, b) None
    else if nonempty (StructTag.Get tag "location") then Returned (current, b) None
    else
      let t := resolveType tag value in
      if String.eqb t "structure" then
        match TypeFieldByName value "SDKShapeTraits" with
        | None => Panicked
        | Some found =>
          let tag :=
            match found with
            | Some field => tag +:+ " " +:+ FieldTag field
            | None => tag
            end in
          buildStruct (buildValue fuel') b value current tag
        end
      else if String.eqb t "list" then buildList (buildValue fuel') b value current tag
      else if String.eqb t "map" then buildMap b value current tag
      else buildScalar b value current tag
  end.

(** The nesting depth of a value: the number of nested calls of
    [buildValue] below the one that receives it. *)
Fixpoint depth (value : Value) : nat :=
  match value with
  | VPtr target => depth target
  | VStruct _ fields => S (list_max (map (fun f => depth f.2) fields))
  | VSlice items => S (list_max (map depth items))
  | VBytes _ | VString _ | VTime _ => 1
  | _ => 0
  end.

(** What [BuildXML] returns: an error of the build, [nil], or the result
    of the serializer [StructToXML(e, v, false)] for the node [v]; or it
    panics. *)
Inductive Built : Type :=
| Err (err : error)
| Nil
| StructToXML (v : XMLNode)
| BuildPanicked.

(** The first node the two nested [range] loops of [BuildXML] reach, with
    the groups taken in insertion order. *)
Fixpoint firstChild (groups : list (string * list XMLNode)) : option XMLNode :=
  match groups with
  | [] => None
  | (_, c) :: rest =>
    match c with
    | v :: _ => Some v
    | [] => firstChild rest
    end
  end.

(** The build runs with the bound [S (depth params)], which it never
    exhausts ([BuildXML_bound]). *)
Definition BuildXML (params : Value) : Built :=
  let b := mkBuilder ∅ in
  let root := NewXMLElement (xml.mkName "" "") in
  match buildValue (S (depth params)) b params root "" with
  | Returned (_, _) (Some err) => Err err
  | Returned (root', _) None =>
    match firstChild (Children root') with
    | Some v => StructToXML v
    | None => Nil
    end
  | Panicked => BuildPanicked
  | OutOfFuel => BuildPanicked
  end.

(** ** The vocabulary of the properties *)

Definition emptyRoot : XMLNode := NewXMLElement (xml.mkName "" "").
Definition newBuilder : xmlBuilder := mkBuilder ∅.

(** A member the loop hands to [buildValue]: its name is exported and
    its tag has no location. *)
Definition bodyMember (f : StructField * Value) : bool :=
  match unexported (FieldName f.1) with
  | Some false => negb (nonempty (StructTag.Get (FieldTag f.1) "location"))
  | _ => false
  end.

(** [n'] has the name and the text of [n]. *)
Definition sameHead (n n' : XMLNode) : Prop :=
  Name n' = Name n /\ Text n' = Text n.

(** Decimal texts, independently of [strconv.FormatInt]: the digits, the
    number they denote, and the canonical form (no leading zero, a sign
    only on a negative number). *)
Definition isDigit (c : ascii) : bool := (48 <=? code c)%Z && (code c <=? 57)%Z.

Fixpoint allDigits (s : string) : bool :=
  match s with
  | EmptyString => true
  | String c s' => isDigit c && allDigits s'
  end.

Fixpoint digitsValue (acc : Z) (s : string) : Z :=
  match s with
  | EmptyString => acc
  | String c s' => digitsValue (10 * acc + (code c - 48)) s'
  end.

Definition canonicalDigits (s : string) : bool :=
  match s with
  | EmptyString => false
  | String c s' => allDigits s && (negb (code c =? 48)%Z || String.eqb s' "")
  end.

Definition isNegative (s : string) : bool :=
  match s with
  | String c _ => (code c =? 45)%Z
  | EmptyString => false
  end.

Definition canonicalDecimal (s : string) : bool :=
  match s with
  | String c ds =>
    if (code c =? 45)%Z then canonicalDigits ds && negb (String.eqb ds "0")
    else canonicalDigits s
  | EmptyString => false
  end.

Definition decimalValue (s : string) : Z :=
  match s with
  | String c ds => if (code c =? 45)%Z then (- digitsValue 0 ds)%Z else digitsValue 0 s
  | EmptyString => 0%Z
  end.

(** The types the switch of [buildScalar] lists. *)
Definition listed (value : Value) : bool :=
  match value with
  | VString _ | VBytes _ | VBool _ | VInteger int64 _ | VInteger int _
  | VFloat64 _ | VFloat32 _ | VTime _ => true
  | _ => false
  end.

(** The result of a call without the state it leaves: the returned
    error (or nil), a panic, or an exhausted bound. *)
Definition status {S : Type} (r : Outcome S) : Outcome unit :=
  match r with
  | Returned _ err => Returned tt err
  | Panicked => Panicked
  | OutOfFuel => OutOfFuel
  end.

(** The status of building [value] with [tag]; by [buildValue_status] it
    is the same in every tree and builder. *)
Definition buildStatus (fuel : nat) (value : Value) (tag : string) : Outcome unit :=
  status (buildValue fuel newBuilder value emptyRoot tag).

(** A member that does not stop the loop: it has a name, and if it is
    handed to [buildValue] the call returns nil. *)
Definition memberSucceeds (fuel : nat) (g : StructField * Value) : Prop :=
  FieldName g.1 <> ""
  /\ (bodyMember g = true ->
      buildStatus fuel (elemOf g.2) (memberTag g.1) = Returned tt None).

(** [item] is built into a new element named [xname], and [node] is what
    the build leaves. *)
Definition builtItem (fuel : nat) (xname : xml.Name) (item : Value) (node : XMLNode)
    : Prop :=
  Name node = xname
  /\ exists b1 b2,
       buildValue fuel b1 item (NewXMLElement xname) "" = Returned (node, b2) None.

(** No node of the tree has both text and children. *)
Fixpoint wellShaped (n : XMLNode) : bool :=
  match n with
  | mkXMLNode _ children text _ =>
    (String.eqb text "" || match children with [] => true | _ :: _ => false end)
    && forallb (fun g : string * list XMLNode => forallb wellShaped g.2) children
  end.

(** [m] is [n] or one of the nodes below it. *)
Inductive inTree (m : XMLNode) : XMLNode -> Prop :=
| inTree_self : inTree m m
| inTree_child n key cs c :
    (key, cs) ∈ Children n -> c ∈ cs -> inTree m c -> inTree m n.

(** A well-shaped element without text: what the builder builds into. *)
Definition container (n : XMLNode) : Prop := wellShaped n = true /\ Text n = "".

(** A value that [buildValue] resolves to a scalar when the tag names no
    type: its kind is none of struct, slice and map. *)
Definition scalarKind (value : Value) : bool :=
  match KindOf value with
  | Struct | Slice | Map => false
  | _ => true
  end.

(** The element of a scalar list item: named [xname], without text, and
    with one child, a text leaf with an empty name that holds the text. *)
Definition scalarItemNode (xname : xml.Name) (str : string) : XMLNode :=
  mkXMLNode xname [("", [mkXMLNode (xml.mkName "" "") [] str []])] "" [].

(** [n'] has the attributes of [n] and maybe more after them, and the
    namespace table of [b'] has the prefixes of the one of [b]. *)
Definition extends (n n' : XMLNode) (b b' : xmlBuilder) : Prop :=
  (exists extra, Attr n' = Attr n ++ extra)
  /\ dom (namespaces b) ⊆ dom (namespaces b').

(** The children of [n] are kept by [n'], group by group and in their
    order, with maybe more after them. *)
Definition keepsChildren (n n' : XMLNode) : Prop :=
  forall key, childrenNamed n key `prefix_of` childrenNamed n' key.

(** A byte that a quoted tag value holds as it is: ASCII, and none of the
    double quote, the backslash and the newline. *)
Definition plainByte (c : ascii) : bool :=
  (code c <? 128)%Z && negb (code c =? 34)%Z && negb (code c =? 92)%Z
  && negb (code c =? 10)%Z.

Fixpoint plainName (s : string) : bool :=
  match s with
  | EmptyString => true
  | String c s' => plainByte c && plainName s'
  end.

(** Two recursive calls that agree on the values nested less than [n]
    deep. *)
Definition agreeBelow (n : nat)
    (bv bv' : xmlBuilder -> Value -> XMLNode -> string -> Result) : Prop :=
  forall b value current tag, depth value < n ->
    bv b value current tag = bv' b value current tag.

(** The result of a call without the builder it leaves. *)
Definition tree (r : Result) : Outcome XMLNode :=
  match r with
  | Returned (n, _) err => Returned n err
  | Panicked => Panicked
  | OutOfFuel => OutOfFuel
  end.

(** The state of the loop over the fields without the builder. *)
Definition fieldsTree (r : Outcome (XMLNode * xmlBuilder * bool))
    : Outcome (XMLNode * bool) :=
  match r with
  | Returned (n, _, fieldAdded) err => Returned (n, fieldAdded) err
  | Panicked => Panicked
  | OutOfFuel => OutOfFuel
  end.

(** A field that is built into a text leaf named as the field and
    holding [str]: its name is exported and of plain bytes, its tag (a
    complete sequence of pairs) names no location, type, attribute
    placement or name, and its value is, behind any pointers, a scalar
    with the text [str]. *)
Definition scalarMember (f : StructField * Value) (str : string) : Prop :=
  unexported (FieldName f.1) = Some false
  /\ plainName (FieldName f.1) = true
  /\ StructTag.lacks (FieldTag f.1) "location"
  /\ StructTag.lacks (FieldTag f.1) "type"
  /\ StructTag.lacks (FieldTag f.1) "xmlAttribute"
  /\ StructTag.lacks (FieldTag f.1) "locationName"
  /\ scalarKind (elemOf f.2) = true
  /\ scalarText (elemOf f.2) = Some str.

Definition textLeaf (f : StructField * Value) (str : string) : XMLNode :=
  mkXMLNode (xml.mkName "" (FieldName f.1)) [] str [].

(** ** Concrete inputs *)

(** A structure [PutInput] whose payload is its field [Config], and two
    versions of the promoted structure: a plain one, and one that declares
    [SDKShapeTraits] with a namespace. *)
Definition plainConfig : Value :=
  VStruct "Config" [(mkField "Zone" "", VString "eu")].

Definition traitsConfig : Value :=
  VStruct "Config"
    [(mkField "Zone" "", VString "eu");
     (mkField "SDKShapeTraits" (kv "xmlURI" "urn:x"), VBool false)].

Definition putInput (config : Value) : Value :=
  VStruct "PutInput" [(mkField "Config" (kv "locationName" "Config"), config)].

(** An input with a map-typed body field between two other fields. *)
Definition taggedInput : Value :=
  VStruct "Input"
    ([(mkField "Name" "", VString "n")]
     ++ (mkField "Tags" "", VMap [(VString "k", VString "v")])
     :: [(mkField "Size" "", VInteger int32 1)]).

Definition twoTags : Value := VSlice [VString "a"; VString "b"].

Definition flattenedTag : string :=
  kv "locationName" "Tag" +:+ " " +:+ kv "flattened" "true".

Definition namedInput : Value :=
  VStruct "Input" [(mkField "Name" (kv "locationName" "Name"), VPtr (VString "x"))].

(** A structure with traits that name a namespace and a [locationName],
    built for a field that has its own [locationName]. *)
Definition traitsTag : string :=
  kv "locationName" "Ignored" +:+ " " +:+ kv "xmlURI" "urn:x".

Definition traitsStruct : Value :=
  VStruct "Config"
    [(mkField "Zone" "", VString "eu"); (mkField "SDKShapeTraits" traitsTag, VBool false)].

(** A node with a child and an attribute. *)
Definition usedNode : XMLNode :=
  mkXMLNode (xml.mkName "" "Parent")
    [("Name", [mkXMLNode (xml.mkName "" "Name") [] "first" []])] ""
    [xml.mkAttr (xml.mkName "" "id") "7"].

(** A request with two body members among located and unexported ones. *)
Definition mixedInput : list (StructField * Value) :=
  [(mkField "Bucket" (kv "location" "uri"), VString "b");
   (mkField "Name" "", VString "n");
   (mkField "metadata" "", VBool true);
   (mkField "Size" "", VInteger int64 7)].

(** A request whose fields all travel outside the body. *)
Definition headInput : list (StructField * Value) :=
  [(mkField "Bucket" (kv "location" "uri"), VString "b");
   (mkField "Key" (kv "location" "uri"), VString "k");
   (mkField "metadata" "", VBool true)].

(** A structure with a name space, and a table that already holds its
    prefix. *)
Definition prefixedTag : string := kv "xmlPrefix" "p" +:+ " " +:+ kv "xmlURI" "u".
Definition usedBuilder : xmlBuilder := mkBuilder (<["p" := "u"]> ∅).

(** * Properties *)

(** ** The model on the examples of the spec *)

(** [StructTag.Get] on conventional tags: the value of the first pair
    with the key, the empty string for a key that is absent, an empty
    value that is found all the same, an escape that is decoded, and a tag
    that breaks off before its closing quote. *)
Example Get_examples :
  StructTag.Get (kv "locationName" "Name" +:+ " " +:+ kv "type" "structure") "type"
  = "structure"
  /\ StructTag.Get (kv "type" "list" +:+ " " +:+ kv "type" "map") "type" = "list"
  /\ StructTag.Get (kv "locationName" "Name") "location" = ""
  /\ StructTag.Lookup (kv "alias" "") "alias" = Some ""
  /\ StructTag.Lookup (kv "locationName" "Name") "alias" = None
  /\ StructTag.Get (kv "sep" "a\tb") "sep" = "a" +:+ String (chr 9) "b"
  /\ StructTag.Get ("type:" +:+ dq +:+ "list") "type" = "".
Proof. repeat split; reflexivity. Qed.

(** The encodings the spec lists as test values. *)
Example scalarText_examples :
  scalarText (VBool true) = Some "true"
  /\ scalarText (VInteger int64 (-42)) = Some "-42"
  /\ scalarText (VBytes [104; 105]%Z) = Some "aGk="
  /\ scalarText (VTime (time.Date 2021 3 4 15 0 0)) = Some "2021-03-04T15:00:00Z".
Proof. repeat split; reflexivity. Qed.

(** The end-to-end example: a name and a flattened list of two tags give
    one element with a text child [Name] and two sibling elements [Tag],
    each holding its text in a leaf; the element is the one handed to the
    serializer. *)
Example BuildXML_end_to_end :
  BuildXML
    (VStruct "Input"
       [(mkField "Name" (kv "locationName" "Name"), VString "x");
        (mkField "Tags" flattenedTag, twoTags)])
  = StructToXML
      (mkXMLNode (xml.mkName "" "")
         [("Name", [mkXMLNode (xml.mkName "" "Name") [] "x" []]);
          ("Tag", [scalarItemNode (xml.mkName "" "Tag") "a";
                   scalarItemNode (xml.mkName "" "Tag") "b"])] "" []).
Proof. reflexivity. Qed.

(** A request whose fields are all located elsewhere writes nothing. *)
Example BuildXML_no_body :
  BuildXML (VStruct "Input" [(mkField "Key" (kv "location" "uri"), VString "k")]) = Nil.
Proof. reflexivity. Qed.

(** ** Loops *)

Section Loops.

Context {A S : Type}.
Implicit Types (body : A -> S -> Outcome S) (s : S).

Lemma forEach_app body (xs ys : list A) s :
  forEach body (xs ++ ys) s =
  match forEach body xs s with
  | Returned s' None => forEach body ys s'
  | r => r
  end.
Proof.
  revert s. induction xs as [|x xs IH]; intros s; simpl; [done|].
  destruct (body x s) as [s' [e|]| |]; auto.
Qed.

Lemma forEach_seq_lookup body (pre l : list A) s :
  forEach (fun i s => match (pre ++ l) !! i with
                      | Some x => body x s
                      | None => Panicked
                      end) (seq (length pre) (length l)) s
  = forEach body l s.
Proof.
  revert pre s. induction l as [|x l IH]; intros pre s; simpl; [done|].
  rewrite list_lookup_middle by done.
  destruct (body x s) as [s' [e|]| |]; try done.
  specialize (IH (pre ++ [x]) s').
  rewrite <- app_assoc, length_app in IH. simpl in IH.
  rewrite Nat.add_1_r in IH. exact IH.
Qed.

Lemma forRange_lookup body (l : list A) s :
  forRange (length l) (fun i s => match l !! i with
                                  | Some x => body x s
                                  | None => Panicked
                                  end) s
  = forEach body l s.
Proof. exact (forEach_seq_lookup body [] l s). Qed.

End Loops.

Lemma nonempty_false (s : string) : nonempty s = false <-> s = "".
Proof.
  unfold nonempty. rewrite negb_false_iff. apply String.eqb_eq.
Qed.

Lemma nonempty_true (s : string) : nonempty s = true <-> s <> "".
Proof.
  unfold nonempty. rewrite negb_true_iff. apply String.eqb_neq.
Qed.

(** ** The loops of [buildList] and [buildStruct] over a slice and a struct *)

Section Sites.

Variable buildValue : xmlBuilder -> Value -> XMLNode -> string -> Result.

Lemma forRange_items (items : list Value) body s :
  forRange (length items) (atIndex (VSlice items) body) s = forEach body items s.
Proof. exact (forRange_lookup body items s). Qed.

Lemma forRange_fields tname (fields : list (StructField * Value)) s :
  forRange (length fields) (buildField buildValue (VStruct tname fields)) s
  = forEach (buildMember buildValue) fields s.
Proof. exact (forRange_lookup (buildMember buildValue) fields s). Qed.

Lemma buildMember_skip f s :
  bodyMember f = false -> FieldName f.1 <> "" ->
  buildMember buildValue f s = Returned s None.
Proof.
  destruct f as [field fvalue], s as [[child b] fa]. unfold bodyMember, buildMember.
  simpl. intros Hb Hn.
  destruct (FieldName field) as [|c name] eqn:E; [done|]. simpl in *.
  destruct (String.eqb (ToLower1 c) (String c "")); [done|].
  apply negb_false_iff in Hb. by rewrite Hb.
Qed.

Lemma buildMember_body f child b fa :
  bodyMember f = true ->
  buildMember buildValue f (child, b, fa) =
  match buildValue b (elemOf f.2) child (memberTag f.1) with
  | Returned (child', b') None => Returned (child', b', true) None
  | Returned (child', b') (Some err) => Returned (child', b', fa) (Some err)
  | Panicked => Panicked
  | OutOfFuel => OutOfFuel
  end.
Proof.
  destruct f as [field fvalue]. unfold bodyMember, buildMember. simpl.
  destruct (unexported (FieldName field)) as [[|]|]; try done.
  intros Hb. apply negb_true_iff in Hb. by rewrite Hb.
Qed.

Lemma buildMember_nameless f s :
  FieldName f.1 = "" -> buildMember buildValue f s = Panicked.
Proof.
  destruct f as [field fvalue], s as [[child b] fa]. unfold buildMember. simpl.
  by intros ->.
Qed.

End Sites.

(** The three cases of a member in the loop of [buildStruct]: it is handed
    to [buildValue], it has no name, or it is skipped. *)
Ltac member_cases f :=
  let Hb := fresh "Hb" in
  let Hn := fresh "Hn" in
  destruct (bodyMember f) eqn:Hb;
  [rewrite buildMember_body by done
  |destruct (decide (FieldName f.1 = "")) as [Hn|Hn];
   [rewrite buildMember_nameless by done
   |rewrite buildMember_skip by done]].

(** [fieldAdded] after a loop that ran to its end. *)
Lemma forEach_fieldAdded bv fields child b fa child' b' fa' :
  forEach (buildMember bv) fields (child, b, fa) = Returned (child', b', fa') None ->
  fa' = fa || existsb bodyMember fields.
Proof.
  revert child b fa. induction fields as [|f fields IH]; intros child b fa;
    cbn [forEach existsb].
  - intros [= <- <- <-]. by rewrite orb_false_r.
  - member_cases f; [|done|].
    + destruct (bv b (elemOf f.2) child (memberTag f.1)) as [[c1 b1] [e|]| |]; try done.
      intros H. apply IH in H. rewrite H. by rewrite orb_true_r.
    + intros H. apply IH in H. by rewrite H, orb_false_l.
Qed.

(** ** What a call leaves of the node it is given *)

Lemma sameHead_refl n : sameHead n n.
Proof. by split. Qed.

Lemma sameHead_trans n1 n2 n3 : sameHead n1 n2 -> sameHead n2 n3 -> sameHead n1 n3.
Proof. intros [? ?] [? ?]. split; congruence. Qed.

Lemma sameHead_AddChild n child : sameHead n (AddChild n child).
Proof. by split. Qed.

Lemma sameHead_appendAttr n attr : sameHead n (appendAttr n attr).
Proof. by split. Qed.

Create HintDb head.
#[local] Hint Resolve sameHead_refl sameHead_AddChild sameHead_appendAttr : head.

Section Heads.

Variable bv : xmlBuilder -> Value -> XMLNode -> string -> Result.

Lemma buildScalar_head b value current tag current' b' err :
  buildScalar b value current tag = Returned (current', b') err ->
  sameHead current current'.
Proof.
  unfold buildScalar. destruct (IsValid value); [|done]. simpl.
  destruct (scalarText value) as [str|].
  - destruct (nonempty _); intros [= <- <- <-]; auto with head.
  - intros [= <- <- <-]; auto with head.
Qed.

Lemma forEach_atIndex_head value xname idxs current b current' b' err :
  forEach (atIndex value (buildItem bv xname)) idxs (current, b)
  = Returned (current', b') err ->
  sameHead current current'.
Proof.
  revert current b. induction idxs as [|i idxs IH]; intros current b; cbn [forEach].
  - intros [= <- <- <-]. auto with head.
  - unfold atIndex at 1. destruct (Index value i) as [item|]; [|done].
    unfold buildItem at 1.
    destruct (bv b item (NewXMLElement xname) "") as [[c1 b1] [e|]| |]; try done.
    + intros [= <- <- <-]. auto with head.
    + intros H. apply IH in H. eapply sameHead_trans; [|exact H]. auto with head.
Qed.

Lemma buildList_head b value current tag current' b' err :
  buildList bv b value current tag = Returned (current', b') err ->
  sameHead current current'.
Proof.
  unfold buildList, forRange. destruct (Len value) as [n|]; [|done].
  destruct (nonempty (StructTag.Get tag "flattened")).
  - apply forEach_atIndex_head.
  - destruct (forEach _ _ _) as [[l1 b1] e| |]; try done.
    intros [= <- <- <-]. auto with head.
Qed.

Lemma buildMembers_head b value current tag current' b' err :
  buildMembers bv b value current tag = Returned (current', b') err ->
  sameHead current current'.
Proof.
  unfold buildMembers.
  destruct (if nonempty (StructTag.Get tag "xmlURI") then _ else _) as [child b0].
  destruct (NumField value) as [n|]; [|done].
  destruct (forRange n _ _) as [[[c1 b1] fa] [e|]| |]; try done.
  - intros [= <- <- <-]. auto with head.
  - destruct fa; intros [= <- <- <-]; auto with head.
Qed.

Lemma buildStruct_head b value current tag current' b' err :
  buildStruct bv b value current tag = Returned (current', b') err ->
  sameHead current current'.
Proof.
  unfold buildStruct.
  destruct (IsValid value); simpl; [|intros [= <- <- <-]; auto with head].
  destruct (nonempty (StructTag.Get tag "payload")).
  - destruct (TypeFieldByName value _) as [field|]; [|done].
    destruct (FieldByName value _) as [fvalue|]; [|done].
    destruct (IsValid (elemOf fvalue)); simpl.
    + apply buildMembers_head.
    + intros [= <- <- <-]. auto with head.
  - apply buildMembers_head.
Qed.

End Heads.

(** The dispatch of [buildValue] on the resolved node kind. *)
Lemma buildValue_dispatch fuel b value current tag :
  IsValid (elemOf value) = true ->
  StructTag.Get tag "location" = "" ->
  buildValue (S fuel) b value current tag =
  let value := elemOf value in
  let t := resolveType tag value in
  if String.eqb t "structure" then
    match TypeFieldByName value "SDKShapeTraits" with
    | None => Panicked
    | Some (Some field) =>
      buildStruct (buildValue fuel) b value current (tag +:+ " " +:+ FieldTag field)
    | Some None => buildStruct (buildValue fuel) b value current tag
    end
  else if String.eqb t "list" then buildList (buildValue fuel) b value current tag
  else if String.eqb t "map" then buildMap b value current tag
  else buildScalar b value current tag.
Proof.
  intros Hv Hl. cbn [buildValue]. rewrite Hv, Hl. cbn [negb nonempty String.eqb].
  cbv zeta. destruct (String.eqb _ "structure"); [|done].
  by destruct (TypeFieldByName _ _) as [[field|]|].
Qed.

(** Case analysis along [buildValue (S fuel)]: the goals are, in order, a
    located value, a structure, the panic on a type that is no struct, a
    list, a map, a scalar, and an invalid value. *)
Ltac dispatch :=
  cbn [buildValue];
  destruct (IsValid (elemOf _)); cbn [negb];
  [destruct (nonempty (StructTag.Get _ "location"));
   [|destruct (String.eqb (resolveType _ _) "structure");
     [destruct (TypeFieldByName _ "SDKShapeTraits")
     |destruct (String.eqb (resolveType _ _) "list");
      [|destruct (String.eqb (resolveType _ _) "map")]]]
  |].

Lemma buildValue_head fuel b value current tag current' b' err :
  buildValue fuel b value current tag = Returned (current', b') err ->
  sameHead current current'.
Proof.
  destruct fuel as [|fuel]; [done|].
  dispatch; try done; try (intros [= <- <- <-]; auto with head);
    eauto using buildStruct_head, buildList_head, buildScalar_head.
Qed.

(** The loop over the fields keeps the name and the text of [child]. *)
Lemma forEach_buildMember_head fuel fields child b fa child' b' fa' err :
  forEach (buildMember (buildValue fuel)) fields (child, b, fa)
  = Returned (child', b', fa') err ->
  sameHead child child'.
Proof.
  revert child b fa. induction fields as [|f fields IH]; intros child b fa; cbn [forEach].
  - intros [= <- <- <-]. auto with head.
  - member_cases f; [|done|apply IH].
    destruct (buildValue fuel b (elemOf f.2) child (memberTag f.1))
      as [[c1 b1] [e|]| |] eqn:E; try done.
    + intros [= <- <- <-]. eapply buildValue_head, E.
    + intros H. apply IH in H. eapply sameHead_trans; [|exact H].
      eapply buildValue_head, E.
Qed.

(** Members that are all nil leave [child] and the builder as they were. *)
Lemma forEach_buildMember_nil fuel fields child b fa child' b' fa' err :
  Forall (fun f => elemOf f.2 = VInvalid) fields ->
  forEach (buildMember (buildValue fuel)) fields (child, b, fa)
  = Returned (child', b', fa') err ->
  child' = child /\ b' = b.
Proof.
  intros Hnil. revert fa.
  induction Hnil as [|f fields Hf _ IH]; intros fa; cbn [forEach].
  - by intros [= <- <- <-].
  - member_cases f; [|done|apply IH].
    rewrite Hf. destruct fuel as [|fuel]; [done|].
    cbn [buildValue elemOf IsValid negb]. apply IH.
Qed.

(** ** Namespace declarations *)

Lemma extends_refl n b : extends n n b b.
Proof. split; [exists []; by rewrite app_nil_r|done]. Qed.

Lemma extends_trans n1 n2 n3 b1 b2 b3 :
  extends n1 n2 b1 b2 -> extends n2 n3 b2 b3 -> extends n1 n3 b1 b3.
Proof.
  intros [[e1 H1] S1] [[e2 H2] S2]. split; [|set_solver].
  exists (e1 ++ e2). by rewrite H2, H1, app_assoc.
Qed.

Lemma extends_AddChild n n' child b b' :
  extends n n' b b' -> extends n (AddChild n' child) b b'.
Proof. intros [[e H] S]. split; [by exists e|done]. Qed.

Section Namespaces.

Variable bv : xmlBuilder -> Value -> XMLNode -> string -> Result.
Hypothesis bv_extends :
  forall b value current tag current' b' err,
    bv b value current tag = Returned (current', b') err ->
    extends current current' b b'.

Lemma forEach_atIndex_extends value xname idxs current b current' b' err :
  forEach (atIndex value (buildItem bv xname)) idxs (current, b)
  = Returned (current', b') err ->
  extends current current' b b'.
Proof.
  revert current b. induction idxs as [|i idxs IH]; intros current b; cbn [forEach].
  - intros [= <- <- <-]. apply extends_refl.
  - unfold atIndex at 1. destruct (Index value i) as [item|]; [|done].
    unfold buildItem at 1.
    destruct (bv b item (NewXMLElement xname) "") as [[c1 b1] [e|]| |] eqn:E; try done;
      apply bv_extends in E as [_ Hb].
    + intros [= <- <- <-]. split; [exists []; by rewrite app_nil_r|done].
    + intros H. apply IH in H. eapply extends_trans; [|exact H].
      split; [exists []; by rewrite app_nil_r|done].
Qed.

Lemma buildList_extends b value current tag current' b' err :
  buildList bv b value current tag = Returned (current', b') err ->
  extends current current' b b'.
Proof.
  unfold buildList, forRange. destruct (Len value) as [n|]; [|done].
  destruct (nonempty _); [apply forEach_atIndex_extends|].
  destruct (forEach _ _ _) as [[l1 b1] e| |] eqn:E; try done.
  intros [= <- <- <-]. apply forEach_atIndex_extends in E as [_ Hb].
  split; [exists []; by rewrite app_nil_r|done].
Qed.

Lemma forEach_buildField_extends value idxs child b fa child' b' fa' err :
  forEach (buildField bv value) idxs (child, b, fa) = Returned (child', b', fa') err ->
  extends child child' b b'.
Proof.
  revert child b fa. induction idxs as [|i idxs IH]; intros child b fa; cbn [forEach].
  - intros [= <- <- <-]. apply extends_refl.
  - unfold buildField at 1. destruct (Field value i) as [[field fvalue]|]; [|done].
    unfold buildMember.
    destruct (unexported _) as [[|]|]; try done; [apply IH|].
    destruct (nonempty _); [apply IH|].
    destruct (bv b (elemOf fvalue) child (memberTag field)) as [[c1 b1] [e|]| |] eqn:E;
      try done; apply bv_extends in E.
    + by intros [= <- <- <-].
    + intros H. apply IH in H. by eapply extends_trans.
Qed.

(** The element of a structure starts with its namespace declaration, and
    a prefix is recorded in the table of the builder. *)
Lemma buildMembers_declares b value current tag current' b' err :
  buildMembers bv b value current tag = Returned (current', b') err ->
  let prefix := StructTag.Get tag "xmlPrefix" in
  let uri := StructTag.Get tag "xmlURI" in
  extends current current' b b'
  /\ (uri <> "" -> prefix <> "" -> prefix ∈ dom (namespaces b'))
  /\ (uri <> "" ->
      current' = current
      \/ exists child extra,
           current' = AddChild current child
           /\ Attr child
              = xml.mkAttr (xml.mkName "" (if nonempty prefix
                                           then "xmlns:" +:+ prefix
                                           else "xmlns")) uri :: extra).
Proof.
  intros H prefix uri. unfold buildMembers, forRange in H.
  fold prefix in H. fold uri in H.
  destruct (if nonempty uri then _ else _) as [child0 b0] eqn:E0.
  destruct (NumField value) as [n|]; [|done].
  destruct (forEach _ _ _) as [[[c1 b1] fa] e| |] eqn:E; try done.
  apply forEach_buildField_extends in E as [[extra Ha] Hb].
  assert (dom (namespaces b) ⊆ dom (namespaces b0)
          /\ (uri <> "" -> prefix <> "" -> prefix ∈ dom (namespaces b0))
          /\ (uri <> "" ->
              Attr child0 = [xml.mkAttr (xml.mkName "" (if nonempty prefix
                                                        then "xmlns:" +:+ prefix
                                                        else "xmlns")) uri]))
    as (Hb0 & Hreg & Hattr).
  { destruct (nonempty uri) eqn:Hu; [destruct (nonempty prefix) eqn:Hp|];
      injection E0 as <- <-; simpl.
    - rewrite dom_insert_L. split; [set_solver|]. split; [set_solver|done].
    - apply nonempty_false in Hp. by split; [|split].
    - apply nonempty_false in Hu. by split; [|split]. }
  assert (b' = b1 /\ (current' = current \/ current' = AddChild current c1))
    as [-> Hcur].
  { destruct e as [e|]; [|destruct fa]; injection H as <- <- <-; auto. }
  split; [|split].
  - split; [|by etrans].
    destruct Hcur as [Hc | Hc]; rewrite Hc; exists []; by rewrite app_nil_r.
  - intros Hu Hp. by apply Hb, Hreg.
  - intros Hu. destruct Hcur as [Hc | Hc]; [by left|right].
    exists c1, extra. split; [done|]. by rewrite Ha, (Hattr Hu).
Qed.

Lemma buildStruct_extends b value current tag current' b' err :
  buildStruct bv b value current tag = Returned (current', b') err ->
  extends current current' b b'.
Proof.
  unfold buildStruct.
  destruct (IsValid value); [|intros [= <- <- <-]; apply extends_refl]. cbn [negb].
  destruct (nonempty _); [|by intros H; apply buildMembers_declares in H as [? _]].
  destruct (TypeFieldByName _ _); [|done]. destruct (FieldByName _ _); [|done].
  destruct (IsValid _); [|intros [= <- <- <-]; apply extends_refl].
  by intros H; apply buildMembers_declares in H as [? _].
Qed.

End Namespaces.

(** A build only appends to the attributes of the node it is given and
    only adds prefixes to the namespace table. *)
Lemma buildValue_extends fuel b value current tag current' b' err :
  buildValue fuel b value current tag = Returned (current', b') err ->
  extends current current' b b'.
Proof.
  revert b value current tag current' b' err.
  induction fuel as [|fuel IH]; intros b value current tag current' b' err; [done|].
  dispatch; try done; try (intros [= <- <- <-]; apply extends_refl).
  - by apply buildStruct_extends.
  - by apply buildList_extends.
  - unfold buildScalar. destruct (IsValid _); [|done]. cbn [negb].
    destruct (scalarText _); [|intros [= <- <- <-]; apply extends_refl].
    destruct (nonempty _); intros [= <- <- <-].
    + split; [by eexists|done].
    + apply extends_AddChild, extends_refl.
Qed.


(** ** Termination: the recursion bound *)

Lemma depth_elemOf value : depth (elemOf value) = depth value.
Proof. induction value; simpl; auto. Qed.

Lemma list_max_ge (l : list nat) x : x ∈ l -> x <= list_max l.
Proof.
  intros H. pose proof (proj1 (list_max_le l (list_max l)) (le_n _)) as Hall.
  rewrite List.Forall_forall in Hall. apply Hall. by apply list_elem_of_In.
Qed.

Lemma depth_field value fields g :
  fieldsOf value = Some fields -> g ∈ fields -> depth g.2 < depth value.
Proof.
  destruct value; try done; simpl.
  - intros [= <-] Hin. apply Nat.lt_succ_r, list_max_ge.
    apply list_elem_of_fmap. by exists g.
  - intros [= <-] Hin.
    apply list_elem_of_In in Hin. simpl in Hin.
    destruct Hin as [<-|[<-|[<-|[]]]]; simpl; lia.
Qed.

Lemma depth_item value i item :
  Index value i = Some item -> depth item < depth value.
Proof.
  destruct value; try done; simpl.
  - intros H. apply Nat.lt_succ_r, list_max_ge.
    apply list_elem_of_fmap. exists item. split; [done|].
    by eapply list_elem_of_lookup_2.
  - destruct (bs !! i); [|done]. intros [= <-]. simpl. lia.
  - destruct (bytes_of s !! i); [|done]. intros [= <-]. simpl. lia.
Qed.

Section Fuel.

Variable bv : xmlBuilder -> Value -> XMLNode -> string -> Result.
Variable n : nat.
Hypothesis bv_runs :
  forall b value current tag, depth value < n -> bv b value current tag <> OutOfFuel.

Lemma buildList_runs b value current tag :
  depth value <= n -> buildList bv b value current tag <> OutOfFuel.
Proof.
  intros Hd.
  assert (forall xname idxs s, forEach (atIndex value (buildItem bv xname)) idxs s
                               <> OutOfFuel) as Hloop.
  { intros xname idxs. induction idxs as [|i idxs IH]; intros [cur b0]; cbn [forEach]; [done|].
    unfold atIndex at 1. destruct (Index value i) as [item|] eqn:E; [|done].
    unfold buildItem at 1.
    pose proof (bv_runs b0 item (NewXMLElement xname) "") as Hr.
    destruct (bv b0 item (NewXMLElement xname) "") as [[c1 b1] [e|]| |]; try done.
    apply Hr. apply depth_item in E. lia. }
  unfold buildList, forRange. destruct (Len value); [|done].
  destruct (nonempty _); [apply Hloop|].
  match goal with
  | |- context [forEach (atIndex value (buildItem bv ?x)) ?l ?s] =>
    pose proof (Hloop x l s) as Hr
  end.
  by destruct (forEach _ _ _) as [[l1 b1] e| |].
Qed.

Lemma buildMembers_runs b value current tag :
  depth value <= n -> buildMembers bv b value current tag <> OutOfFuel.
Proof.
  intros Hd.
  assert (forall idxs s, forEach (buildField bv value) idxs s <> OutOfFuel) as Hloop.
  { intros idxs. induction idxs as [|i idxs IH]; intros [[child b0] fa]; cbn [forEach]; [done|].
    unfold buildField at 1, Field.
    destruct (fieldsOf value) as [fields|] eqn:Ef; [|done].
    destruct (fields !! i) as [[field fvalue]|] eqn:E; [|done].
    unfold buildMember.
    destruct (unexported _) as [[|]|]; try done.
    destruct (nonempty _); try done.
    pose proof (bv_runs b0 (elemOf fvalue) child (memberTag field)) as Hr.
    destruct (bv b0 (elemOf fvalue) child (memberTag field)) as [[c1 b1] [e|]| |];
      try done.
    intros _. apply Hr; [|done]. rewrite depth_elemOf.
    apply list_elem_of_lookup_2 in E.
    pose proof (depth_field _ _ _ Ef E). simpl in *. lia. }
  unfold buildMembers, forRange.
  destruct (if nonempty (StructTag.Get tag "xmlURI") then _ else _) as [child0 b0].
  destruct (NumField value); [|done].
  match goal with |- context [forEach ?f ?l ?s] => pose proof (Hloop l s) as Hr end.
  destruct (forEach _ _ _) as [[[c1 b1] fa] [e|]| |]; try done.
  by destruct fa.
Qed.

Lemma buildStruct_runs b value current tag :
  depth value <= n -> buildStruct bv b value current tag <> OutOfFuel.
Proof.
  intros Hd. unfold buildStruct. destruct (IsValid value); [|done]. cbn [negb].
  destruct (nonempty _); [|by apply buildMembers_runs].
  unfold TypeFieldByName, FieldByName.
  destruct (fieldsOf value) as [fields|] eqn:Ef; [|done].
  destruct (findField _ fields) as [g|] eqn:Eg; cbn [fmap option_fmap option_map].
  - destruct (IsValid (elemOf g.2)); [|done]. cbn [negb].
    apply buildMembers_runs. rewrite depth_elemOf.
    assert (g ∈ fields) as Hin.
    { clear -Eg. induction fields as [|h fields IH]; [done|]. simpl in Eg.
      destruct (String.eqb _ _); [injection Eg as ->; left|right; auto]. }
    pose proof (depth_field _ _ _ Ef Hin). lia.
  - done.
Qed.

End Fuel.

(** Any bound above the nesting depth of the value is enough: the build
    returns or panics, it never runs out of fuel. *)
Theorem buildValue_total fuel b value current tag :
  depth value < fuel -> buildValue fuel b value current tag <> OutOfFuel.
Proof.
  revert b value current tag. induction fuel as [|fuel IH]; intros b value current tag Hd;
    [lia|].
  assert (depth (elemOf value) <= fuel) as Hd' by (rewrite depth_elemOf; lia).
  dispatch; try done.
  - apply (buildStruct_runs _ fuel); [intros; by apply IH|done].
  - apply (buildList_runs _ fuel); [intros; by apply IH|done].
  - unfold buildScalar. destruct (IsValid _); [|done]. cbn [negb].
    destruct (scalarText _); [|done]. by destruct (nonempty _).
Qed.

(** ** What the caller sees: the status of a call *)

Section Status.

Variable bv : xmlBuilder -> Value -> XMLNode -> string -> Result.
Hypothesis bv_status :
  forall b b' value current current' tag,
    status (bv b value current tag) = status (bv b' value current' tag).

Lemma forEach_buildField_status value idxs s s' :
  status (forEach (buildField bv value) idxs s)
  = status (forEach (buildField bv value) idxs s').
Proof.
  revert s s'. induction idxs as [|i idxs IH]; intros [[c b] fa] [[c' b'] fa'];
    cbn [forEach]; [done|].
  unfold buildField at 1 3. destruct (Field value i) as [[field fvalue]|]; [|done].
  unfold buildMember.
  destruct (unexported _) as [[|]|]; try done.
  destruct (nonempty _); try done.
  pose proof (bv_status b b' (elemOf fvalue) c c' (memberTag field)) as H.
  destruct (bv b (elemOf fvalue) c (memberTag field)) as [[c1 b1] [e|]| |],
           (bv b' (elemOf fvalue) c' (memberTag field)) as [[c2 b2] [e'|]| |];
    simpl in H; try done.
Qed.

Lemma forEach_atIndex_status value xname idxs s s' :
  status (forEach (atIndex value (buildItem bv xname)) idxs s)
  = status (forEach (atIndex value (buildItem bv xname)) idxs s').
Proof.
  revert s s'. induction idxs as [|i idxs IH]; intros [c b] [c' b']; cbn [forEach]; [done|].
  unfold atIndex at 1 3. destruct (Index value i) as [item|]; [|done].
  unfold buildItem at 1 3.
  pose proof (bv_status b b' item (NewXMLElement xname) (NewXMLElement xname) "") as H.
  destruct (bv b item (NewXMLElement xname) "") as [[c1 b1] [e|]| |],
           (bv b' item (NewXMLElement xname) "") as [[c2 b2] [e'|]| |];
    simpl in H; try done.
Qed.

Lemma buildList_status b b' value current current' tag :
  status (buildList bv b value current tag) = status (buildList bv b' value current' tag).
Proof.
  unfold buildList, forRange. destruct (Len value) as [n|]; [|done].
  destruct (nonempty _); [apply forEach_atIndex_status|].
  match goal with
  | |- context [forEach ?f ?l (?c, b)] =>
    pose proof (forEach_atIndex_status value
                  (xml.mkName "" (if String.eqb (StructTag.Get tag "locationNameList") ""
                                  then "member"
                                  else StructTag.Get tag "locationNameList"))
                  l (c, b) (c, b')) as H
  end.
  destruct (forEach _ _ (_, b)) as [[l1 b1] e| |],
           (forEach _ _ (_, b')) as [[l2 b2] e'| |]; simpl in H; try done.
Qed.

Lemma buildMembers_status b b' value current current' tag :
  status (buildMembers bv b value current tag)
  = status (buildMembers bv b' value current' tag).
Proof.
  unfold buildMembers, forRange.
  destruct (NumField value) as [n|] eqn:En.
  - destruct (nonempty (StructTag.Get tag "xmlURI"));
      [destruct (nonempty (StructTag.Get tag "xmlPrefix"))|];
      match goal with
      | |- context [forEach ?f ?l ?s] =>
        match goal with
        | |- status _ = status (match forEach _ _ ?s' with _ => _ end) =>
          pose proof (forEach_buildField_status value l s s') as H
        end
      end;
      destruct (forEach _ _ _) as [[[c1 b1] fa] [e|]| |],
               (forEach _ _ _) as [[[c2 b2] fa'] [e'|]| |];
      simpl in H; try done; try (by destruct fa, fa'); by injection H as ->.
  - by destruct (nonempty _); [destruct (nonempty _)|].
Qed.

Lemma buildStruct_status b b' value current current' tag :
  status (buildStruct bv b value current tag)
  = status (buildStruct bv b' value current' tag).
Proof.
  unfold buildStruct. destruct (IsValid value); [|done]. cbn [negb].
  destruct (nonempty _); [|apply buildMembers_status].
  destruct (TypeFieldByName _ _); [|done]. destruct (FieldByName _ _); [|done].
  destruct (IsValid _); [|done]. apply buildMembers_status.
Qed.

End Status.

(** The status of a call does not depend on the tree or on the builder
    it is given. *)
Lemma buildValue_status fuel b b' value current current' tag :
  status (buildValue fuel b value current tag)
  = status (buildValue fuel b' value current' tag).
Proof.
  revert b b' value current current' tag.
  induction fuel as [|fuel IH]; intros b b' value current current' tag; [done|].
  dispatch; try done.
  - by apply buildStruct_status.
  - by apply buildList_status.
  - unfold buildScalar. destruct (IsValid _); [|done]. cbn [negb].
    destruct (scalarText _); [|done]. by destruct (nonempty _).
Qed.

Lemma buildStatus_returned fuel b value current tag err :
  buildStatus fuel value tag = Returned tt err ->
  exists current' b', buildValue fuel b value current tag = Returned (current', b') err.
Proof.
  unfold buildStatus.
  rewrite (buildValue_status fuel newBuilder b value emptyRoot current tag).
  destruct (buildValue fuel b value current tag) as [[c1 b1] e| |]; try done.
  intros [= <-]. by eexists _, _.
Qed.

(** Loops whose members or items all build without error run to their end. *)
Lemma forEach_buildMember_ok fuel pre s :
  Forall (memberSucceeds fuel) pre ->
  exists s', forEach (buildMember (buildValue fuel)) pre s = Returned s' None.
Proof.
  intros Hpre. revert s.
  induction Hpre as [|g pre [Hname Hok] _ IH]; intros [[c b] fa]; cbn [forEach];
    [by eexists|].
  destruct (bodyMember g) eqn:Hb.
  - rewrite buildMember_body by done.
    destruct (buildStatus_returned fuel b _ c _ _ (Hok eq_refl)) as (c1 & b1 & ->).
    apply IH.
  - rewrite buildMember_skip by done. apply IH.
Qed.

Lemma forEach_buildItem_ok fuel xname pre s :
  Forall (fun item => buildStatus fuel item "" = Returned tt None) pre ->
  exists s', forEach (buildItem (buildValue fuel) xname) pre s = Returned s' None.
Proof.
  intros Hpre. revert s.
  induction Hpre as [|item pre Hok _ IH]; intros [c b]; cbn [forEach]; [by eexists|].
  unfold buildItem at 1.
  destruct (buildStatus_returned fuel b item (NewXMLElement xname) _ _ Hok)
    as (c1 & b1 & ->).
  apply IH.
Qed.

(** [BuildXML] runs its build to the end. *)
Lemma BuildXML_bound params b current tag :
  buildValue (S (depth params)) b params current tag <> OutOfFuel.
Proof. apply buildValue_total. lia. Qed.

(** ** C1: when a structure's element is attached *)

(** C1, as stated, fails: a structure whose only field is a nil pointer
    produces no child node at all, and its element is attached to the
    parent all the same, as an empty element. *)
Lemma C1_nil_member_gives_empty_element :
  buildStruct (buildValue 1) newBuilder
    (VStruct "Input" [(mkField "Body" "", VNil)]) emptyRoot (kv "locationName" "Input")
  = Returned (AddChild emptyRoot (NewXMLElement (xml.mkName "" "Input")), newBuilder) None
  /\ buildValue 1 newBuilder VNil (NewXMLElement (xml.mkName "" "Input"))
       (memberTag (mkField "Body" ""))
     = Returned (NewXMLElement (xml.mkName "" "Input"), newBuilder) None.
Proof. split; reflexivity. Qed.

(** C1, amended: a structure whose members all build without error is
    built without error, and the element of a structure that is built
    without error is attached to the parent if and only if the structure
    has a member the loop hands to [buildValue], that is an exported field
    whose tag has no location, whatever that member produced.  The
    attached element is named by [locationName], and when every field
    value is nil it is attached with no children, as an empty element; a
    structure with no such member leaves the parent as it was. *)
Theorem C1_attached_iff_body_member fuel b tname fields current tag :
  StructTag.Get tag "payload" = "" ->
  (Forall (memberSucceeds fuel) fields ->
   exists current' b',
     buildStruct (buildValue fuel) b (VStruct tname fields) current tag
     = Returned (current', b') None)
  /\ (forall current' b',
        buildStruct (buildValue fuel) b (VStruct tname fields) current tag
        = Returned (current', b') None ->
        (existsb bodyMember fields = true ->
         exists child,
           current' = AddChild current child
           /\ Name child = xml.mkName "" (StructTag.Get tag "locationName")
           /\ (Forall (fun f => elemOf f.2 = VInvalid) fields -> Children child = []))
        /\ (existsb bodyMember fields = false -> current' = current)).
Proof.
  intros Hp. unfold buildStruct. cbn [IsValid negb].
  rewrite Hp. cbn [nonempty String.eqb negb]. unfold buildMembers.
  destruct (if nonempty (StructTag.Get tag "xmlURI") then _ else _)
    as [child0 b0] eqn:E0.
  assert (Name child0 = xml.mkName "" (StructTag.Get tag "locationName")
          /\ Children child0 = []) as [Hname Hkids].
  { destruct (nonempty (StructTag.Get tag "xmlURI"));
      [destruct (nonempty (StructTag.Get tag "xmlPrefix"))|];
      injection E0 as <- <-; by split. }
  cbn [NumField fieldsOf]. rewrite forRange_fields. split.
  { intros Hok.
    destruct (forEach_buildMember_ok fuel fields (child0, b0, false) Hok)
      as ([[c1 b1] fa] & ->).
    destruct fa; by eexists _, _. }
  intros current' b'.
  destruct (forEach _ fields _) as [[[c1 b1] fa] [e|]| |] eqn:E; try done.
  pose proof (forEach_fieldAdded _ _ _ _ _ _ _ _ E) as Hfa. simpl in Hfa.
  pose proof (forEach_buildMember_head _ _ _ _ _ _ _ _ _ E) as [Hn _].
  intros H. split; intros Hex; rewrite Hex in Hfa; subst fa.
  - injection H as <- <-. exists c1. split; [done|]. split; [congruence|].
    intros Hnil. destruct (forEach_buildMember_nil _ _ _ _ _ _ _ _ _ Hnil E) as [-> _].
    done.
  - by injection H as <- <-.
Qed.

Lemma C1_attached_iff_body_member_witness :
  (exists current' b',
     buildStruct (buildValue 1) newBuilder (VStruct "Input" [(mkField "Body" "", VNil)])
       emptyRoot (kv "locationName" "Input")
     = Returned (current', b') None)
  /\ (exists child,
        AddChild emptyRoot (NewXMLElement (xml.mkName "" "Input"))
        = AddChild emptyRoot child
        /\ Name child
           = xml.mkName "" (StructTag.Get (kv "locationName" "Input") "locationName")
        /\ Children child = []).
Proof.
  destruct (C1_attached_iff_body_member 1 newBuilder "Input"
              [(mkField "Body" "", VNil)] emptyRoot (kv "locationName" "Input") eq_refl)
    as [Hreturns Hshape].
  split.
  - apply Hreturns. apply List.Forall_cons; [|apply List.Forall_nil].
    split; [discriminate|reflexivity].
  - destruct (proj1 (Hshape _ newBuilder eq_refl) eq_refl)
      as (child & Heq & Hname & Hkids).
    exists child. split; [exact Heq|]. split; [exact Hname|].
    apply Hkids. repeat constructor.
Defined.

(** ** C2: payload unwrapping *)

(** C2, as stated, fails: the promoted value is not resolved again.  Built
    directly, the element of [traitsConfig] carries the [xmlns] attribute
    of its traits; built through the payload of [putInput] it carries no
    attribute. *)
Lemma C2_promoted_value_not_resolved_again :
  (exists child,
     buildStruct (buildValue 1) newBuilder (putInput (VPtr traitsConfig))
       emptyRoot (kv "payload" "Config")
     = Returned (AddChild emptyRoot child, newBuilder) None
     /\ Attr child = [])
  /\ (exists child,
        buildValue 2 newBuilder (VPtr traitsConfig) emptyRoot (kv "locationName" "Config")
        = Returned (AddChild emptyRoot child, newBuilder) None
        /\ Attr child = [xml.mkAttr (xml.mkName "" "xmlns") "urn:x"]).
Proof. split; eexists; split; reflexivity. Qed.

(** C2, amended: for a structure whose tag names a payload field, the
    builder goes on with the dereferenced value and the tag of that field
    and walks its fields as a structure, without resolving it again: no
    location test, no type resolution, no merging of [SDKShapeTraits], no
    second unwrapping.  So the output is the one of building the promoted
    field directly at the parent's position when the field's tag has no
    location and no payload, resolves to a structure, and the promoted
    structure declares no [SDKShapeTraits]; the outer wrapper never
    appears.  When the promoted value is nil or the field does not exist,
    nothing is emitted. *)
Theorem C2_payload_unwrapping fuel b value current tag :
  IsValid value = true ->
  StructTag.Get tag "payload" <> "" ->
  (forall field fvalue,
     TypeFieldByName value (StructTag.Get tag "payload") = Some field ->
     FieldByName value (StructTag.Get tag "payload") = Some fvalue ->
     elemOf fvalue = VInvalid ->
     buildStruct (buildValue fuel) b value current tag = Returned (current, b) None)
  /\ (forall field fvalue,
        TypeFieldByName value (StructTag.Get tag "payload") = Some (Some field) ->
        FieldByName value (StructTag.Get tag "payload") = Some fvalue ->
        StructTag.Get (FieldTag field) "location" = "" ->
        StructTag.Get (FieldTag field) "payload" = "" ->
        resolveType (FieldTag field) (elemOf fvalue) = "structure" ->
        TypeFieldByName (elemOf fvalue) "SDKShapeTraits" = Some None ->
        buildStruct (buildValue fuel) b value current tag
        = buildValue (S fuel) b fvalue current (FieldTag field)).
Proof.
  intros Hv Hp. apply nonempty_true in Hp. split.
  - intros field fvalue Ht Hf Hnil. unfold buildStruct.
    rewrite Hv, Hp, Ht, Hf, Hnil. reflexivity.
  - intros field fvalue Ht Hf Hloc Hpay Hty Htr.
    assert (IsValid (elemOf fvalue) = true) as Hvalid.
    { destruct (elemOf fvalue); try done. }
    unfold buildStruct at 1. rewrite Hv, Hp, Ht, Hf, Hvalid. cbn [negb].
    cbn [buildValue]. rewrite Hvalid, Hloc. cbn [negb nonempty String.eqb].
    rewrite Hty.
    cbn [String.eqb Ascii.eqb Bool.eqb]. rewrite Htr.
    unfold buildStruct. rewrite Hvalid, Hpay. reflexivity.
Qed.

Lemma C2_payload_unwrapping_witness :
  buildStruct (buildValue 1) newBuilder (putInput VNil) emptyRoot (kv "payload" "Config")
  = Returned (emptyRoot, newBuilder) None
  /\ buildStruct (buildValue 1) newBuilder (putInput (VPtr plainConfig))
       emptyRoot (kv "payload" "Config")
     = buildValue 2 newBuilder (VPtr plainConfig) emptyRoot (kv "locationName" "Config").
Proof.
  split.
  - refine (proj1 (C2_payload_unwrapping 1 newBuilder (putInput VNil) emptyRoot
                     (kv "payload" "Config") _ _)
                  (Some (mkField "Config" (kv "locationName" "Config"))) VNil _ _ _);
      first [reflexivity | vm_compute; discriminate].
  - refine (proj2 (C2_payload_unwrapping 1 newBuilder (putInput (VPtr plainConfig))
                     emptyRoot (kv "payload" "Config") _ _)
                  (mkField "Config" (kv "locationName" "Config")) (VPtr plainConfig)
                  _ _ _ _ _ _);
      first [reflexivity | vm_compute; discriminate].
Defined.

(** ** C3: location filtering *)

Lemma findField_skip name pre (f : StructField * Value) post :
  FieldName f.1 <> name ->
  findField name (pre ++ f :: post) = findField name (pre ++ post).
Proof.
  intros Hne. induction pre as [|g pre IH]; simpl.
  - apply String.eqb_neq in Hne. by rewrite Hne.
  - by rewrite IH.
Qed.

Lemma bodyMember_location f :
  StructTag.Get (FieldTag f.1) "location" <> "" -> bodyMember f = false.
Proof.
  intros H. apply nonempty_true in H. unfold bodyMember. rewrite H.
  by destruct (unexported _) as [[|]|].
Qed.

(** C3, as stated, fails for the location [body]: a field tagged with it
    is skipped like any other located field, both by [buildValue] and by
    the loop of [buildStruct], and nothing of it reaches the tree. *)
Lemma C3_location_body_is_skipped :
  buildValue 1 newBuilder (VString "x") emptyRoot
    (kv "location" "body" +:+ " " +:+ kv "locationName" "Name")
  = Returned (emptyRoot, newBuilder) None
  /\ buildStruct (buildValue 1) newBuilder
       (VStruct "Input" [(mkField "Name" (kv "location" "body"), VString "x")])
       emptyRoot (kv "locationName" "Input")
     = Returned (emptyRoot, newBuilder) None.
Proof. split; reflexivity. Qed.

(** C3, amended: the builder handles a field only when the location of
    its tag is absent or empty, and then dispatches on the resolved node
    kind; a field with any non-empty location, [body] included, is
    skipped entirely: [buildValue] returns at once with the tree and the
    builder untouched, and a structure builds exactly as if the field
    were not declared. *)
Theorem C3_location_filter :
  (forall fuel b value current tag,
     StructTag.Get tag "location" <> "" ->
     buildValue (S fuel) b value current tag = Returned (current, b) None)
  /\ (forall bv b tname pre f v post current tag,
        StructTag.Get (FieldTag f) "location" <> "" ->
        FieldName f <> "" ->
        StructTag.Get tag "payload" <> FieldName f ->
        buildStruct bv b (VStruct tname (pre ++ (f, v) :: post)) current tag
        = buildStruct bv b (VStruct tname (pre ++ post)) current tag)
  /\ (forall fuel b value current tag,
        StructTag.Get tag "location" = "" ->
        IsValid (elemOf value) = true ->
        buildValue (S fuel) b value current tag =
        let value := elemOf value in
        let t := resolveType tag value in
        if String.eqb t "structure" then
          match TypeFieldByName value "SDKShapeTraits" with
          | None => Panicked
          | Some (Some field) =>
            buildStruct (buildValue fuel) b value current (tag +:+ " " +:+ FieldTag field)
          | Some None => buildStruct (buildValue fuel) b value current tag
          end
        else if String.eqb t "list" then buildList (buildValue fuel) b value current tag
        else if String.eqb t "map" then buildMap b value current tag
        else buildScalar b value current tag).
Proof.
  split; [|split].
  - intros fuel b value current tag H. apply nonempty_true in H.
    cbn [buildValue]. rewrite H. by destruct (IsValid (elemOf value)).
  - intros bv b tname pre f v post current tag Hloc Hname Hpay.
    unfold buildStruct. cbn [IsValid negb TypeFieldByName FieldByName fieldsOf].
    rewrite (findField_skip _ pre (f, v) post) by (simpl; congruence).
    destruct (nonempty (StructTag.Get tag "payload")); [done|].
    unfold buildMembers.
    destruct (if nonempty (StructTag.Get tag "xmlURI") then _ else _) as [child0 b0].
    cbn [NumField fieldsOf]. rewrite !forRange_fields.
    rewrite !forEach_app. cbn [forEach].
    destruct (forEach (buildMember bv) pre (child0, b0, false))
      as [[[c1 b1] fa] [e|]| |]; try done.
    rewrite buildMember_skip; [done| |done].
    by apply bodyMember_location.
  - intros fuel b value current tag Hl Hv. by apply buildValue_dispatch.
Qed.

Lemma C3_location_filter_witness :
  buildValue 1 newBuilder (VString "x") emptyRoot
    (kv "location" "header" +:+ " " +:+ kv "locationName" "x-amz-name")
  = Returned (emptyRoot, newBuilder) None
  /\ buildStruct (buildValue 1) newBuilder
       (VStruct "Input" ([(mkField "Name" "", VString "n")]
                         ++ (mkField "Key" (kv "location" "uri"), VString "k")
                         :: [(mkField "Size" "", VInteger int64 7)]))
       emptyRoot (kv "locationName" "Input")
     = buildStruct (buildValue 1) newBuilder
         (VStruct "Input" ([(mkField "Name" "", VString "n")]
                           ++ [(mkField "Size" "", VInteger int64 7)]))
         emptyRoot (kv "locationName" "Input")
  /\ buildValue 1 newBuilder (VString "x") emptyRoot (kv "locationName" "Name")
     = buildScalar newBuilder (VString "x") emptyRoot (kv "locationName" "Name").
Proof.
  destruct C3_location_filter as (Hskip & Hdrop & Hhandle).
  split; [|split].
  - apply Hskip. vm_compute. discriminate.
  - apply Hdrop; vm_compute; discriminate.
  - apply (Hhandle 0 newBuilder (VString "x") emptyRoot); reflexivity.
Defined.

(** ** C4: scalar encoding *)

Lemma allDigits_string_of_uint d : allDigits (NilEmpty.string_of_uint d) = true.
Proof. induction d; simpl; auto. Qed.

Lemma digitsValue_acc d (acc : positive) :
  digitsValue (Z.pos acc) (NilEmpty.string_of_uint d) = Z.pos (Pos.of_uint_acc d acc).
Proof.
  revert acc. induction d; intros acc; cbn [NilEmpty.string_of_uint digitsValue Pos.of_uint_acc];
    [done|..]; rewrite <- IHd; f_equal; vm_compute code; lia.
Qed.

Lemma digitsValue_of_uint d :
  digitsValue 0 (NilEmpty.string_of_uint d) = Z.of_N (Pos.of_uint d).
Proof.
  induction d; cbn [NilEmpty.string_of_uint digitsValue Pos.of_uint Z.of_N];
    [done|exact IHd|..]; rewrite <- digitsValue_acc; reflexivity.
Qed.

Lemma to_uint_normal p : Pos.to_uint p = Decimal.unorm (Pos.to_uint p).
Proof.
  rewrite <- DecimalPos.Unsigned.to_of, DecimalPos.Unsigned.of_to. reflexivity.
Qed.

(** The text of a positive number: digits only, the first one not zero. *)
Lemma string_of_to_uint p :
  exists c s,
    NilZero.string_of_uint (Pos.to_uint p) = String c s
    /\ allDigits (String c s) = true
    /\ (code c =? 48)%Z = false
    /\ (code c =? 45)%Z = false
    /\ digitsValue 0 (String c s) = Z.pos p.
Proof.
  pose proof (to_uint_normal p) as Hn.
  pose proof (DecimalPos.Unsigned.to_uint_nonnil p) as Hnil.
  pose proof (digitsValue_of_uint (Pos.to_uint p)) as Hv.
  rewrite DecimalPos.Unsigned.of_to in Hv.
  pose proof (allDigits_string_of_uint (Pos.to_uint p)) as Hd.
  unfold Decimal.unorm in Hn.
  pose proof (nzhead_nonzero (Pos.to_uint p)) as Hz.
  destruct (Pos.to_uint p) as [|u|u|u|u|u|u|u|u|u|u] eqn:E; try done;
    try (eexists _, _; repeat split; try reflexivity; try exact Hd; exact Hv).
  exfalso. cbn [Decimal.nzhead] in Hn, Hz.
  destruct (Decimal.nzhead u) eqn:E'; try done; [|by eapply Hz].
  injection Hn as ->. by apply (DecimalPos.Unsigned.to_uint_nonzero p).
Qed.

Lemma FormatInt_canonical (i : Z) :
  canonicalDecimal (strconv.FormatInt i) = true
  /\ decimalValue (strconv.FormatInt i) = i
  /\ (isNegative (strconv.FormatInt i) = true <-> (i < 0)%Z).
Proof.
  unfold strconv.FormatInt. destruct i as [|p|p]; cbn [Z.to_int NilZero.string_of_int].
  - vm_compute. repeat split; try done.
  - destruct (string_of_to_uint p) as (c & s & -> & Hd & H0 & Hm & Hv).
    unfold canonicalDecimal, decimalValue, isNegative, canonicalDigits.
    rewrite Hm, Hd, H0. repeat split; try done.
  - destruct (string_of_to_uint p) as (c & s & -> & Hd & H0 & Hm & Hv).
    unfold canonicalDecimal, decimalValue, isNegative, canonicalDigits.
    change (code "-" =? 45)%Z with true. cbv iota.
    rewrite Hd, H0, Hv. cbn [andb orb negb].
    repeat split; try done.
    apply negb_true_iff, String.eqb_neq. intros [= -> ->]. done.
Qed.

(** C4, as stated, fails for the widths the switch does not list: an
    [int32] is a signed integer, and [buildScalar] rejects it. *)
Lemma C4_int32_is_rejected :
  buildScalar newBuilder (VInteger int32 (-42)) emptyRoot (kv "locationName" "Count")
  = Returned (emptyRoot, newBuilder)
      (Some (UnsupportedScalarType "Count" (VInteger int32 (-42)) "int32")).
Proof. reflexivity. Qed.

(** C4, amended: the switch lists string, []byte, bool, int64, int,
    float64, float32 and time.Time.  A signed integer of type int64 or int
    is encoded as its decimal text, with no leading zero and a sign only
    when it is negative; a value of a listed type never fails; and every
    value of another type, the signed integers of the other widths
    included, fails with [UnsupportedScalarType], which carries the
    [locationName], the value and its type name, and leaves the tree and
    the builder untouched. *)
Theorem C4_scalar_encoding :
  (forall t i,
     t = int64 \/ t = int ->
     scalarText (VInteger t i) = Some (strconv.FormatInt i)
     /\ canonicalDecimal (strconv.FormatInt i) = true
     /\ decimalValue (strconv.FormatInt i) = i
     /\ (isNegative (strconv.FormatInt i) = true <-> (i < 0)%Z))
  /\ (forall b value current tag,
        listed value = true ->
        exists str current',
          scalarText value = Some str
          /\ buildScalar b value current tag = Returned (current', b) None)
  /\ (forall b value current tag,
        IsValid value = true ->
        listed value = false ->
        buildScalar b value current tag
        = Returned (current, b)
            (Some (UnsupportedScalarType (StructTag.Get tag "locationName") value
                                         (TypeName value))))
  /\ (forall t i, t <> int64 -> t <> int -> listed (VInteger t i) = false).
Proof.
  split; [|split; [|split]].
  - intros t i Ht. split; [by destruct Ht as [-> | ->]|]. apply FormatInt_canonical.
  - intros b value current tag Hl.
    assert (exists str, scalarText value = Some str) as [str Hs].
    { destruct value as [| | | | | | | | |t i| | | |]; try done; try (by eexists).
      destruct t; try done; by eexists. }
    assert (IsValid value = true) as Hv by (by destruct value).
    exists str. unfold buildScalar. rewrite Hv, Hs. cbn [negb].
    destruct (nonempty _); by eexists.
  - intros b value current tag Hv Hl. unfold buildScalar. rewrite Hv. cbn [negb].
    assert (scalarText value = None) as ->; [|done].
    destruct value as [| | | | | | | | |t i| | | |]; try done. by destruct t.
  - intros t i H64 Hi. by destruct t.
Qed.

Lemma C4_scalar_encoding_witness :
  (scalarText (VInteger int64 (-42)) = Some (strconv.FormatInt (-42))
   /\ canonicalDecimal (strconv.FormatInt (-42)) = true
   /\ decimalValue (strconv.FormatInt (-42)) = (-42)%Z
   /\ (isNegative (strconv.FormatInt (-42)) = true <-> (-42 < 0)%Z))
  /\ (exists str current',
        scalarText (VInteger int 7) = Some str
        /\ buildScalar newBuilder (VInteger int 7) emptyRoot (kv "locationName" "Count")
           = Returned (current', newBuilder) None)
  /\ buildScalar newBuilder (VInteger int16 7) emptyRoot (kv "locationName" "Count")
     = Returned (emptyRoot, newBuilder)
         (Some (UnsupportedScalarType
                  (StructTag.Get (kv "locationName" "Count") "locationName")
                  (VInteger int16 7) (TypeName (VInteger int16 7))))
  /\ listed (VInteger int8 (-1)) = false.
Proof.
  destruct C4_scalar_encoding as (Hint & Hlisted & Hother & Hwidth).
  split; [|split; [|split]].
  - apply Hint. by left.
  - by apply Hlisted.
  - by apply Hother.
  - by apply Hwidth.
Defined.

(** ** C5: maps are refused and errors propagate *)

(** C5: a value that resolves to a map makes [buildValue] return
    [UnsupportedContainerKind] with the tree and the builder untouched;
    [buildValue] returns the result of the builder it dispatches to as it
    is; in [buildStruct] and in [buildList] the first member or item whose
    build fails ends the loop and its error is the one returned, with
    nothing attached to the parent by [buildStruct]; and [BuildXML]
    returns the error of the build and hands nothing to the serializer. *)
Theorem C5_errors_propagate :
  (forall fuel b value current tag,
     IsValid (elemOf value) = true ->
     StructTag.Get tag "location" = "" ->
     resolveType tag (elemOf value) = "map" ->
     buildValue (S fuel) b value current tag
     = Returned (current, b) (Some UnsupportedContainerKind))
  /\ (forall fuel b value current tag,
        buildValue (S fuel) b value current tag = Returned (current, b) None
        \/ buildValue (S fuel) b value current tag = Panicked
        \/ (exists tag',
              buildValue (S fuel) b value current tag
              = buildStruct (buildValue fuel) b (elemOf value) current tag')
        \/ buildValue (S fuel) b value current tag
           = buildList (buildValue fuel) b (elemOf value) current tag
        \/ buildValue (S fuel) b value current tag
           = buildMap b (elemOf value) current tag
        \/ buildValue (S fuel) b value current tag
           = buildScalar b (elemOf value) current tag)
  /\ (forall fuel b tname pre f v post current tag err,
        StructTag.Get tag "payload" = "" ->
        Forall (memberSucceeds fuel) pre ->
        bodyMember (f, v) = true ->
        buildStatus fuel (elemOf v) (memberTag f) = Returned tt (Some err) ->
        exists b',
          buildStruct (buildValue fuel) b (VStruct tname (pre ++ (f, v) :: post))
            current tag
          = Returned (current, b') (Some err))
  /\ (forall fuel b pre item post current tag err,
        Forall (fun item => buildStatus fuel item "" = Returned tt None) pre ->
        buildStatus fuel item "" = Returned tt (Some err) ->
        exists current' b',
          buildList (buildValue fuel) b (VSlice (pre ++ item :: post)) current tag
          = Returned (current', b') (Some err))
  /\ (forall params current' b' err,
        buildValue (S (depth params)) newBuilder params emptyRoot ""
        = Returned (current', b') (Some err) ->
        BuildXML params = Err err).
Proof.
  split; [|split; [|split; [|split]]].
  - intros fuel b value current tag Hv Hl Ht.
    rewrite buildValue_dispatch by done. cbv zeta. by rewrite Ht.
  - intros fuel b value current tag. cbn [buildValue].
    destruct (IsValid _); [|by left]. cbn [negb].
    destruct (nonempty _); [by left|].
    destruct (String.eqb _ "structure").
    { destruct (TypeFieldByName _ _); [|by right; left].
      right; right; left. by eexists. }
    destruct (String.eqb _ "list"); [by right; right; right; left|].
    destruct (String.eqb _ "map"); [by right; right; right; right; left|].
    by right; right; right; right; right.
  - intros fuel b tname pre f v post current tag err Hp Hpre Hb Herr.
    unfold buildStruct. cbn [IsValid negb]. rewrite Hp. cbn [nonempty String.eqb negb].
    unfold buildMembers.
    destruct (if nonempty (StructTag.Get tag "xmlURI") then _ else _) as [child0 b0].
    cbn [NumField fieldsOf]. rewrite forRange_fields, forEach_app.
    destruct (forEach_buildMember_ok fuel pre (child0, b0, false) Hpre)
      as ([[c1 b1] fa] & ->).
    cbn [forEach]. rewrite buildMember_body by done. cbn [fst snd].
    destruct (buildStatus_returned fuel b1 _ c1 _ _ Herr) as (c2 & b2 & ->).
    by exists b2.
  - intros fuel b pre item post current tag err Hpre Herr.
    unfold buildList. cbn [Len]. rewrite !forRange_items, !forEach_app.
    destruct (nonempty _).
    + destruct (forEach_buildItem_ok fuel
                  (xml.mkName "" (StructTag.Get tag "locationName"))
                  pre (current, b) Hpre) as ([c1 b1] & ->).
      cbn [forEach]. unfold buildItem at 1.
      destruct (buildStatus_returned fuel b1 item (NewXMLElement
                  (xml.mkName "" (StructTag.Get tag "locationName"))) _ _ Herr)
        as (c2 & b2 & ->).
      by eexists _, _.
    + match goal with
      | |- context [forEach (buildItem _ ?x) pre ?s] =>
        destruct (forEach_buildItem_ok fuel x pre s Hpre) as ([c1 b1] & ->);
        cbn [forEach]; unfold buildItem at 1;
        destruct (buildStatus_returned fuel b1 item (NewXMLElement x) _ _ Herr)
          as (c2 & b2 & ->)
      end.
      by eexists _, _.
  - intros params current' b' err H. unfold BuildXML.
    change (mkBuilder ∅) with newBuilder.
    change (NewXMLElement (xml.mkName "" "")) with emptyRoot.
    by rewrite H.
Qed.

Lemma C5_errors_propagate_witness :
  buildValue 1 newBuilder (VMap [(VString "k", VString "v")]) emptyRoot
    (kv "locationName" "Tags")
  = Returned (emptyRoot, newBuilder) (Some UnsupportedContainerKind)
  /\ (exists b',
        buildStruct (buildValue 1) newBuilder taggedInput emptyRoot
          (kv "locationName" "Input")
        = Returned (emptyRoot, b') (Some UnsupportedContainerKind))
  /\ (exists current' b',
        buildList (buildValue 1) newBuilder
          (VSlice ([VString "a"] ++ VMap [] :: [VString "b"])) emptyRoot
          (kv "locationName" "Items")
        = Returned (current', b') (Some UnsupportedContainerKind))
  /\ BuildXML taggedInput = Err UnsupportedContainerKind.
Proof.
  destruct C5_errors_propagate as (Hmap & _ & Hstruct & Hlist & Hbuild).
  split; [|split; [|split]].
  - by apply Hmap.
  - apply (Hstruct 1 newBuilder "Input" [(mkField "Name" "", VString "n")]
             (mkField "Tags" "") (VMap [(VString "k", VString "v")])
             [(mkField "Size" "", VInteger int32 1)]); try reflexivity.
    apply List.Forall_cons; [split; [discriminate|reflexivity]|apply List.Forall_nil].
  - apply (Hlist 1 newBuilder [VString "a"] (VMap []) [VString "b"]); [|reflexivity].
    apply List.Forall_cons; [reflexivity|apply List.Forall_nil].
  - eapply Hbuild. vm_compute. reflexivity.
Defined.

(** ** C6: the two shapes of a list *)

Lemma group_addToGroup key child groups :
  group key (addToGroup key child groups) = group key groups ++ [child].
Proof.
  induction groups as [|[k cs] groups IH]; simpl.
  - by rewrite String.eqb_refl.
  - destruct (String.eqb k key) eqn:E; simpl; rewrite E; [done|exact IH].
Qed.

Lemma group_addToGroup_ne key key' child groups :
  key <> key' -> group key' (addToGroup key child groups) = group key' groups.
Proof.
  intros Hne. induction groups as [|[k cs] groups IH]; simpl.
  - apply String.eqb_neq in Hne. by rewrite Hne.
  - destruct (String.eqb k key) eqn:E; simpl.
    + apply String.eqb_eq in E as ->. apply String.eqb_neq in Hne. by rewrite Hne.
    + by rewrite IH.
Qed.

Lemma childrenNamed_AddChild n child :
  childrenNamed (AddChild n child) (xml.Local (Name child))
  = childrenNamed n (xml.Local (Name child)) ++ [child].
Proof. apply group_addToGroup. Qed.

Lemma childrenNamed_AddChild_ne n child key :
  xml.Local (Name child) <> key ->
  childrenNamed (AddChild n child) key = childrenNamed n key.
Proof. apply group_addToGroup_ne. Qed.

Lemma foldl_AddChild_frame n nodes :
  sameHead n (foldl AddChild n nodes) /\ Attr (foldl AddChild n nodes) = Attr n.
Proof.
  revert n. induction nodes as [|c nodes IH]; intros n; simpl; [by repeat split|].
  destruct (IH (AddChild n c)) as [[H1 H2] H3]. repeat split; by etrans.
Qed.

Lemma foldl_AddChild_named n nodes key :
  Forall (fun c => xml.Local (Name c) = key) nodes ->
  childrenNamed (foldl AddChild n nodes) key = childrenNamed n key ++ nodes.
Proof.
  intros Hall. revert n. induction Hall as [|c nodes Hc _ IH]; intros n; simpl.
  - by rewrite app_nil_r.
  - rewrite IH. rewrite <- Hc at 1 2. rewrite childrenNamed_AddChild.
    by rewrite <- app_assoc.
Qed.

Lemma foldl_AddChild_named_ne n nodes key key' :
  key <> key' ->
  Forall (fun c => xml.Local (Name c) = key) nodes ->
  childrenNamed (foldl AddChild n nodes) key' = childrenNamed n key'.
Proof.
  intros Hne Hall. revert n. induction Hall as [|c nodes Hc _ IH]; intros n; simpl; [done|].
  rewrite IH. apply childrenNamed_AddChild_ne. congruence.
Qed.

(** The groups of an element that got only children of one name. *)
Lemma foldl_AddChild_one_group n cs nodes key :
  Children n = [(key, cs)] ->
  Forall (fun c => xml.Local (Name c) = key) nodes ->
  Children (foldl AddChild n nodes) = [(key, cs ++ nodes)].
Proof.
  intros Hn Hall. revert n cs Hn.
  induction Hall as [|c nodes Hc _ IH]; intros n cs Hn; simpl.
  - by rewrite app_nil_r.
  - rewrite (IH (AddChild n c) (cs ++ [c])); [by rewrite <- app_assoc|].
    simpl. by rewrite Hn, Hc; simpl; rewrite String.eqb_refl.
Qed.

Lemma foldl_AddChild_new_group n nodes key :
  Children n = [] ->
  Forall (fun c => xml.Local (Name c) = key) nodes ->
  Children (foldl AddChild n nodes)
  = match nodes with [] => [] | _ :: _ => [(key, nodes)] end.
Proof.
  intros Hn Hall. destruct Hall as [|c nodes Hc Hall]; simpl; [done|].
  rewrite (foldl_AddChild_one_group (AddChild n c) [c] nodes key); [done| |done].
  simpl. by rewrite Hn, Hc.
Qed.

Lemma forEach_buildItem_nodes fuel xname items current b current' b' :
  forEach (buildItem (buildValue fuel) xname) items (current, b)
  = Returned (current', b') None ->
  exists nodes,
    current' = foldl AddChild current nodes
    /\ Forall2 (builtItem fuel xname) items nodes.
Proof.
  revert current b. induction items as [|item items IH]; intros current b; cbn [forEach].
  - intros [= <- <-]. exists []. by split.
  - unfold buildItem at 1.
    destruct (buildValue fuel b item (NewXMLElement xname) "")
      as [[c1 b1] [e|]| |] eqn:E; try done.
    intros H. destruct (IH _ _ H) as (nodes & -> & Hall).
    exists (c1 :: nodes). split; [done|]. constructor; [|done].
    split; [|by eexists _, _]. by destruct (buildValue_head _ _ _ _ _ _ _ _ E).
Qed.

Lemma builtItem_named fuel xname items nodes :
  Forall2 (builtItem fuel xname) items nodes ->
  Forall (fun c => xml.Local (Name c) = xml.Local xname) nodes.
Proof.
  induction 1 as [|item node items nodes [Hn _] _ IH]; constructor; [by rewrite Hn|done].
Qed.

(** C6: a list whose items all build without error is built without
    error, and a list of N items that builds without error adds, when
    [flattened] is set, exactly N elements to the group [locationName] of
    the parent, after the children already there, each the build of one
    item into a new element named [locationName], in the order of the
    items, and no wrapper; otherwise it adds exactly one element named
    [locationName], whose children are the N builds of the items into new
    elements named [locationNameList] (or member), in the order of the
    items.  The other groups of the parent, its name, text and attributes
    stay as they were. *)
Theorem C6_list_shape fuel b items current tag :
  let lname := StructTag.Get tag "locationName" in
  (Forall (fun item => buildStatus fuel item "" = Returned tt None) items ->
   exists current' b',
     buildList (buildValue fuel) b (VSlice items) current tag
     = Returned (current', b') None)
  /\ (forall current' b',
        buildList (buildValue fuel) b (VSlice items) current tag
        = Returned (current', b') None ->
        sameHead current current'
        /\ Attr current' = Attr current
        /\ (forall key, key <> lname ->
              childrenNamed current' key = childrenNamed current key)
        /\ exists nodes,
             length nodes = length items
             /\ (StructTag.Get tag "flattened" <> "" ->
                 Forall2 (builtItem fuel (xml.mkName "" lname)) items nodes
                 /\ childrenNamed current' lname = childrenNamed current lname ++ nodes)
             /\ (StructTag.Get tag "flattened" = "" ->
                 Forall2 (builtItem fuel (xml.mkName "" (itemName tag))) items nodes
                 /\ exists wrapper,
                      childrenNamed current' lname
                      = childrenNamed current lname ++ [wrapper]
                      /\ Name wrapper = xml.mkName "" lname
                      /\ Text wrapper = ""
                      /\ Attr wrapper = []
                      /\ Children wrapper
                         = match nodes with
                           | [] => []
                           | _ :: _ => [(itemName tag, nodes)]
                           end)).
Proof.
  intros lname. split.
  { intros Hok. unfold buildList. cbn [Len]. rewrite !forRange_items.
    destruct (nonempty _).
    - destruct (forEach_buildItem_ok fuel
                  (xml.mkName "" (StructTag.Get tag "locationName")) items
                  (current, b) Hok) as ([c1 b1] & ->).
      by eexists _, _.
    - destruct (forEach_buildItem_ok fuel (xml.mkName "" (itemName tag)) items
                  (NewXMLElement (xml.mkName "" (StructTag.Get tag "locationName")), b)
                  Hok) as ([c1 b1] & ->).
      by eexists _, _. }
  intros current' b' H. unfold buildList in H. cbn [Len] in H.
  rewrite !forRange_items in H. fold lname in H.
  destruct (nonempty (StructTag.Get tag "flattened")) eqn:Hf.
  - apply forEach_buildItem_nodes in H as (nodes & -> & Hall).
    pose proof (builtItem_named _ _ _ _ Hall) as Hnamed. simpl in Hnamed.
    destruct (foldl_AddChild_frame current nodes) as [Hh Ha].
    split; [done|]. split; [done|]. split.
    { intros key Hk. eapply foldl_AddChild_named_ne; [|exact Hnamed]. done. }
    exists nodes. split; [symmetry; by eapply Forall2_length|]. split.
    + intros _. split; [done|]. by apply foldl_AddChild_named.
    + intros Hf'. apply nonempty_true in Hf. done.
  - destruct (forEach _ items _) as [[list' b1] [e|]| |] eqn:E; try done.
    injection H as <- <-.
    apply forEach_buildItem_nodes in E as (nodes & -> & Hall).
    pose proof (builtItem_named _ _ _ _ Hall) as Hnamed. simpl in Hnamed.
    destruct (foldl_AddChild_frame (NewXMLElement (xml.mkName "" lname)) nodes)
      as [[Hn Ht] Ha].
    split; [auto with head|]. split; [done|]. split.
    { intros key Hk. apply childrenNamed_AddChild_ne. rewrite Hn. simpl. done. }
    exists nodes. split; [symmetry; by eapply Forall2_length|]. split.
    + intros Hf'. apply nonempty_false in Hf. done.
    + intros _. split; [done|].
      exists (foldl AddChild (NewXMLElement (xml.mkName "" lname)) nodes).
      split.
      { pose proof (childrenNamed_AddChild current
                      (foldl AddChild (NewXMLElement (xml.mkName "" lname)) nodes)) as Hc.
        rewrite Hn in Hc. exact Hc. }
      split; [done|]. split; [done|]. split; [done|].
      by apply foldl_AddChild_new_group.
Qed.

Lemma C6_list_shape_witness :
  exists current' b',
    buildList (buildValue 1) newBuilder twoTags emptyRoot flattenedTag
    = Returned (current', b') None
    /\ sameHead emptyRoot current'
    /\ (exists nodes,
          length nodes = 2
          /\ Forall2 (builtItem 1 (xml.mkName "" "Tag")) [VString "a"; VString "b"] nodes
          /\ childrenNamed current' "Tag" = nodes)
    /\ (exists current2 b2 nodes wrapper,
          buildList (buildValue 1) newBuilder twoTags emptyRoot (kv "locationName" "Tags")
          = Returned (current2, b2) None
          /\ length nodes = 2
          /\ childrenNamed current2 "Tags" = [wrapper]
          /\ Children wrapper = [("member", nodes)]).
Proof.
  destruct (C6_list_shape 1 newBuilder [VString "a"; VString "b"] emptyRoot flattenedTag)
    as [Hreturns Hshape].
  destruct Hreturns as (current' & b' & Hr).
  { apply List.Forall_cons; [reflexivity|].
    apply List.Forall_cons; [reflexivity|apply List.Forall_nil]. }
  exists current', b'. split; [exact Hr|].
  destruct (Hshape _ _ Hr) as (Hh & _ & _ & nodes & Hlen & Hflat & _).
  destruct Hflat as [Hall Hc]; [vm_compute; discriminate|].
  split; [exact Hh|]. split; [by exists nodes|].
  destruct (C6_list_shape 1 newBuilder [VString "a"; VString "b"] emptyRoot
              (kv "locationName" "Tags")) as [_ Hshape2].
  destruct (Hshape2 _ _ eq_refl) as (_ & _ & _ & nodes2 & Hlen2 & _ & Hwrap).
  destruct Hwrap as (Hall2 & wrapper & Hc2 & _ & _ & _ & Hkids); [reflexivity|].
  eexists _, _, nodes2, wrapper. split; [reflexivity|]. split; [exact Hlen2|].
  split; [exact Hc2|].
  destruct nodes2 as [|n2 nodes2]; [discriminate Hlen2|exact Hkids].
Defined.

(** ** C7: where a scalar is placed *)

(** C7: a scalar whose tag sets [xmlAttribute] appends the pair of
    [locationName] and its text to the attribute list of the element it is
    built into and creates no child; one without [xmlAttribute] appends a
    text leaf named [locationName], with the text and with no children or
    attributes, to the group [locationName] of that element.  Nothing else
    changes: the name and text of the element, its other groups, the list
    it did not extend, and the builder. *)
Theorem C7_scalar_placement b value current tag str :
  scalarText value = Some str ->
  let lname := StructTag.Get tag "locationName" in
  exists current',
    buildScalar b value current tag = Returned (current', b) None
    /\ sameHead current current'
    /\ (StructTag.Get tag "xmlAttribute" <> "" ->
        Attr current' = Attr current ++ [xml.mkAttr (xml.mkName "" lname) str]
        /\ Children current' = Children current)
    /\ (StructTag.Get tag "xmlAttribute" = "" ->
        Attr current' = Attr current
        /\ childrenNamed current' lname
           = childrenNamed current lname ++ [mkXMLNode (xml.mkName "" lname) [] str []]
        /\ forall key, key <> lname ->
             childrenNamed current' key = childrenNamed current key).
Proof.
  intros Hs lname. unfold buildScalar.
  assert (IsValid value = true) as -> by (by destruct value).
  rewrite Hs. cbn [negb]. fold lname.
  destruct (nonempty (StructTag.Get tag "xmlAttribute")) eqn:Ha.
  - eexists. split; [reflexivity|]. split; [auto with head|]. split.
    + by intros _.
    + intros Ha'. apply nonempty_true in Ha. done.
  - eexists. split; [reflexivity|]. split; [auto with head|]. split.
    + intros Ha'. apply nonempty_false in Ha. done.
    + intros _. split; [done|]. split.
      * apply (childrenNamed_AddChild current (mkXMLNode (xml.mkName "" lname) [] str [])).
      * intros key Hk. apply childrenNamed_AddChild_ne. simpl. done.
Qed.

Lemma C7_scalar_placement_witness :
  exists current',
    buildScalar newBuilder (VString "v1") emptyRoot
      (kv "locationName" "version" +:+ " " +:+ kv "xmlAttribute" "true")
    = Returned (current', newBuilder) None
    /\ Attr current' = [xml.mkAttr (xml.mkName "" "version") "v1"]
    /\ Children current' = [].
Proof.
  destruct (C7_scalar_placement newBuilder (VString "v1") emptyRoot
              (kv "locationName" "version" +:+ " " +:+ kv "xmlAttribute" "true")
              "v1" eq_refl) as (current' & Hr & _ & Hattr & _).
  exists current'. split; [exact Hr|]. apply Hattr. vm_compute. discriminate.
Defined.

(** ** C8: text and children are never mixed *)

Lemma wellShaped_inTree n m :
  wellShaped n = true -> inTree m n -> Text m = "" \/ Children m = [].
Proof.
  intros Hn Hin. induction Hin as [|n key cs c Hg Hc _ IH].
  - destruct m as [name children text attr]. simpl in *.
    apply andb_true_iff in Hn as [Hn _]. apply orb_true_iff in Hn as [Hn|Hn].
    + left. by apply String.eqb_eq.
    + right. by destruct children.
  - apply IH. destruct n as [name children text attr]. simpl in *.
    apply andb_true_iff in Hn as [_ Hn].
    rewrite forallb_forall in Hn. apply list_elem_of_In in Hg.
    specialize (Hn _ Hg). simpl in Hn. rewrite forallb_forall in Hn.
    apply Hn. by apply list_elem_of_In.
Qed.

Lemma forallb_wellShaped_addToGroup key child groups :
  wellShaped child = true ->
  forallb (fun g : string * list XMLNode => forallb wellShaped g.2) groups = true ->
  forallb (fun g : string * list XMLNode => forallb wellShaped g.2)
          (addToGroup key child groups) = true.
Proof.
  intros Hc. induction groups as [|[k cs] groups IH]; simpl.
  - by rewrite Hc.
  - intros H. apply andb_true_iff in H as [H1 H2].
    destruct (String.eqb k key); simpl.
    + rewrite forallb_app, H1, H2. simpl. by rewrite Hc.
    + by rewrite H1, IH.
Qed.

Lemma container_AddChild n child :
  container n -> wellShaped child = true -> container (AddChild n child).
Proof.
  intros [Hn Ht] Hc. split; [|done].
  destruct n as [name children text attr]. simpl in *. subst text.
  apply andb_true_iff in Hn as [_ Hn]. simpl.
  by apply forallb_wellShaped_addToGroup.
Qed.

Lemma container_appendAttr n attr : container n -> container (appendAttr n attr).
Proof. intros [Hn Ht]. split; [|done]. by destruct n. Qed.

Lemma container_NewXMLElement xname : container (NewXMLElement xname).
Proof. by split. Qed.

Lemma buildScalar_container b value current tag current' b' err :
  buildScalar b value current tag = Returned (current', b') err ->
  container current -> container current'.
Proof.
  unfold buildScalar. destruct (IsValid value); [|done]. cbn [negb].
  destruct (scalarText value) as [str|]; [|by intros [= <- <- <-]].
  destruct (nonempty _); intros [= <- <- <-] Hc.
  - by apply container_appendAttr.
  - apply container_AddChild; [done|]. simpl. by rewrite orb_true_r.
Qed.

Section Shape.

Variable bv : xmlBuilder -> Value -> XMLNode -> string -> Result.
Hypothesis bv_container :
  forall b value current tag current' b' err,
    bv b value current tag = Returned (current', b') err ->
    container current -> container current'.

Lemma forEach_atIndex_container value xname idxs current b current' b' err :
  forEach (atIndex value (buildItem bv xname)) idxs (current, b)
  = Returned (current', b') err ->
  container current -> container current'.
Proof.
  revert current b. induction idxs as [|i idxs IH]; intros current b; cbn [forEach].
  - by intros [= <- <- <-].
  - unfold atIndex at 1. destruct (Index value i) as [item|]; [|done].
    unfold buildItem at 1.
    destruct (bv b item (NewXMLElement xname) "") as [[c1 b1] [e|]| |] eqn:E; try done.
    + intros [= <- <- <-] Hc. apply container_AddChild; [done|].
      eapply bv_container; [exact E|apply container_NewXMLElement].
    + intros H Hc. eapply IH; [exact H|]. apply container_AddChild; [done|].
      eapply bv_container; [exact E|apply container_NewXMLElement].
Qed.

Lemma buildList_container b value current tag current' b' err :
  buildList bv b value current tag = Returned (current', b') err ->
  container current -> container current'.
Proof.
  unfold buildList, forRange. destruct (Len value) as [n|]; [|done].
  destruct (nonempty _); [apply forEach_atIndex_container|].
  destruct (forEach _ _ _) as [[l1 b1] e| |] eqn:E; try done.
  intros [= <- <- <-] Hc. apply container_AddChild; [done|].
  eapply forEach_atIndex_container; [exact E|apply container_NewXMLElement].
Qed.

Lemma forEach_buildField_container value idxs child b fa child' b' fa' err :
  forEach (buildField bv value) idxs (child, b, fa) = Returned (child', b', fa') err ->
  container child -> container child'.
Proof.
  revert child b fa. induction idxs as [|i idxs IH]; intros child b fa; cbn [forEach].
  - by intros [= <- <- <-].
  - unfold buildField at 1. destruct (Field value i) as [[field fvalue]|]; [|done].
    unfold buildMember.
    destruct (unexported _) as [[|]|]; try done; [apply IH|].
    destruct (nonempty _); [apply IH|].
    destruct (bv b (elemOf fvalue) child (memberTag field)) as [[c1 b1] [e|]| |] eqn:E;
      try done.
    + intros [= <- <- <-] Hc. by eapply bv_container.
    + intros H Hc. eapply IH; [exact H|]. by eapply bv_container.
Qed.

Lemma buildMembers_container b value current tag current' b' err :
  buildMembers bv b value current tag = Returned (current', b') err ->
  container current -> container current'.
Proof.
  unfold buildMembers, forRange.
  destruct (if nonempty (StructTag.Get tag "xmlURI") then _ else _)
    as [child0 b0] eqn:E0.
  assert (container child0) as Hc0.
  { destruct (nonempty (StructTag.Get tag "xmlURI"));
      [destruct (nonempty (StructTag.Get tag "xmlPrefix"))|];
      injection E0 as <- <-; by split. }
  destruct (NumField value) as [n|]; [|done].
  destruct (forEach _ _ _) as [[[c1 b1] fa] [e|]| |] eqn:E; try done.
  - by intros [= <- <- <-].
  - destruct fa; intros [= <- <- <-] Hc; [|done].
    apply container_AddChild; [done|].
    by eapply forEach_buildField_container.
Qed.

Lemma buildStruct_container b value current tag current' b' err :
  buildStruct bv b value current tag = Returned (current', b') err ->
  container current -> container current'.
Proof.
  unfold buildStruct. destruct (IsValid value); [|by intros [= <- <- <-]]. cbn [negb].
  destruct (nonempty _); [|apply buildMembers_container].
  destruct (TypeFieldByName _ _); [|done]. destruct (FieldByName _ _); [|done].
  destruct (IsValid _); [|by intros [= <- <- <-]]. apply buildMembers_container.
Qed.

End Shape.

Lemma buildValue_container fuel b value current tag current' b' err :
  buildValue fuel b value current tag = Returned (current', b') err ->
  container current -> container current'.
Proof.
  revert b value current tag current' b' err.
  induction fuel as [|fuel IH]; intros b value current tag current' b' err; [done|].
  dispatch; try done; try (by intros [= <- <- <-]).
  - by apply buildStruct_container.
  - by apply buildList_container.
  - apply buildScalar_container.
Qed.

(** C8: whatever a build is given, if it starts from a well-shaped
    element without text (as [BuildXML] and every element the builder
    creates are), no node of the tree it leaves, also when it fails,
    carries both text and children: the text is empty or there are no
    children.  The same holds for every node of the tree that [BuildXML]
    hands to the serializer. *)
Theorem C8_text_and_children_not_mixed :
  (forall fuel b value current tag current' b' err m,
     buildValue fuel b value current tag = Returned (current', b') err ->
     wellShaped current = true -> Text current = "" ->
     inTree m current' ->
     Text m = "" \/ Children m = [])
  /\ (forall params v m,
        BuildXML params = StructToXML v ->
        inTree m v ->
        Text m = "" \/ Children m = []).
Proof.
  split.
  - intros fuel b value current tag current' b' err m H Hw Ht Hin.
    destruct (buildValue_container _ _ _ _ _ _ _ _ H (conj Hw Ht)) as [Hw' _].
    by eapply wellShaped_inTree.
  - intros params v m H Hin. unfold BuildXML in H.
    destruct (buildValue _ _ params _ _) as [[root' b'] [e|]| |] eqn:E; try done.
    destruct (firstChild (Children root')) as [v'|] eqn:Ev; [|done].
    injection H as ->.
    destruct (buildValue_container _ _ _ _ _ _ _ _ E (container_NewXMLElement _))
      as [Hw _].
    eapply (wellShaped_inTree root'); [done|].
    assert (exists key cs, (key, cs) ∈ Children root' /\ v ∈ cs) as (key & cs & Hg & Hc).
    { clear -Ev. induction (Children root') as [|[k cs] groups IH]; [done|].
      simpl in Ev. destruct cs as [|c cs].
      - destruct (IH Ev) as (key & cs' & Hg & Hc). exists key, cs'. split; [by right|done].
      - injection Ev as ->. exists k, (v :: cs). split; by left. }
    eapply inTree_child; eauto.
Qed.

Lemma C8_text_and_children_not_mixed_witness :
  exists v,
    BuildXML namedInput = StructToXML v
    /\ inTree (mkXMLNode (xml.mkName "" "Name") [] "x" []) v
    /\ (Text (mkXMLNode (xml.mkName "" "Name") [] "x" []) = ""
        \/ Children (mkXMLNode (xml.mkName "" "Name") [] "x" []) = []).
Proof.
  eexists. split; [reflexivity|].
  assert (inTree (mkXMLNode (xml.mkName "" "Name") [] "x" [])
            (mkXMLNode (xml.mkName "" "")
               [("Name", [mkXMLNode (xml.mkName "" "Name") [] "x" []])] "" [])) as Hin.
  { eapply inTree_child; [by left|by left|apply inTree_self]. }
  split; [exact Hin|].
  exact (proj2 C8_text_and_children_not_mixed namedInput _ _ eq_refl Hin).
Defined.

(** ** C9: the tag of SDKShapeTraits is appended *)

Lemma run_Stop key r tag : StructTag.run key (StructTag.Stop r) tag = StructTag.Stop r.
Proof. induction tag; simpl; auto. Qed.

Lemma run_append key st tag1 tag2 :
  StructTag.run key st (tag1 +:+ tag2)
  = StructTag.run key (StructTag.run key st tag1) tag2.
Proof. revert st. induction tag1 as [|c tag1 IH]; intros st; simpl; auto. Qed.

(** A key the tag has keeps its value when more is appended. *)
Lemma Get_append_found tag rest key v :
  StructTag.Lookup tag key = Some v -> StructTag.Get (tag +:+ rest) key = v.
Proof.
  unfold StructTag.Get, StructTag.Lookup. rewrite run_append.
  destruct (StructTag.run key StructTag.AtPair tag) as [| | | | |r]; try done.
  intros ->. by rewrite run_Stop.
Qed.

(** A key a complete tag lacks is looked up in what is appended. *)
Lemma Get_append_lacks tag traits key :
  StructTag.lacks tag key ->
  StructTag.Get (tag +:+ " " +:+ traits) key = StructTag.Get traits key.
Proof.
  unfold StructTag.lacks, StructTag.Get, StructTag.Lookup. intros H.
  by rewrite run_append, H.
Qed.

(** C9: when a value resolves to a structure that declares a field named
    [SDKShapeTraits], [buildValue] appends a space and the tag of that
    field to the tag it was given and builds the structure with the
    result.  In the merged tag a key that the given tag has keeps the
    value of the given tag, and a key that the given tag (a complete
    sequence of pairs) lacks gets the value of the traits. *)
Theorem C9_trait_merging :
  (forall fuel b value current tag field,
     IsValid (elemOf value) = true ->
     StructTag.Get tag "location" = "" ->
     resolveType tag (elemOf value) = "structure" ->
     TypeFieldByName (elemOf value) "SDKShapeTraits" = Some (Some field) ->
     buildValue (S fuel) b value current tag
     = buildStruct (buildValue fuel) b (elemOf value) current
         (tag +:+ " " +:+ FieldTag field))
  /\ (forall tag traits key v,
        StructTag.Lookup tag key = Some v ->
        StructTag.Get (tag +:+ " " +:+ traits) key = v)
  /\ (forall tag traits key,
        StructTag.lacks tag key ->
        StructTag.Get (tag +:+ " " +:+ traits) key = StructTag.Get traits key).
Proof.
  split; [|split].
  - intros fuel b value current tag field Hv Hl Ht Hf.
    rewrite buildValue_dispatch by done. cbv zeta. by rewrite Ht, Hf.
  - intros tag traits key v. apply Get_append_found.
  - intros tag traits key. apply Get_append_lacks.
Qed.

Lemma C9_trait_merging_witness :
  buildValue 2 newBuilder traitsStruct emptyRoot (kv "locationName" "Config")
  = buildStruct (buildValue 1) newBuilder traitsStruct emptyRoot
      (kv "locationName" "Config" +:+ " " +:+ traitsTag)
  /\ StructTag.Get (kv "locationName" "Config" +:+ " " +:+ traitsTag) "locationName"
     = "Config"
  /\ StructTag.Get (kv "locationName" "Config" +:+ " " +:+ traitsTag) "xmlURI"
     = StructTag.Get traitsTag "xmlURI".
Proof.
  destruct C9_trait_merging as (Hmerge & Hown & Htraits).
  split; [|split].
  - exact (Hmerge 1 newBuilder traitsStruct emptyRoot (kv "locationName" "Config")
             (mkField "SDKShapeTraits" traitsTag) eq_refl eq_refl eq_refl eq_refl).
  - by apply Hown.
  - by apply Htraits.
Defined.

(** ** C10: the node of a scalar list item *)

Lemma buildValue_scalar_item fuel b item xname str :
  scalarKind (elemOf item) = true ->
  scalarText (elemOf item) = Some str ->
  buildValue (S fuel) b item (NewXMLElement xname) ""
  = Returned (scalarItemNode xname str, b) None.
Proof.
  intros Hk Hs.
  assert (IsValid (elemOf item) = true) as Hv by (by destruct (elemOf item)).
  rewrite buildValue_dispatch by done. cbv zeta.
  assert (resolveType "" (elemOf item) = "") as ->.
  { unfold resolveType, scalarKind in *. change (StructTag.Get "" "type") with "".
    cbn [String.eqb]. by destruct (KindOf (elemOf item)). }
  cbn [String.eqb]. unfold buildScalar. rewrite Hv, Hs. reflexivity.
Qed.

Lemma forEach_buildItem_scalars fuel xname items strs current b :
  Forall2 (fun item str => scalarKind (elemOf item) = true
                           /\ scalarText (elemOf item) = Some str) items strs ->
  forEach (buildItem (buildValue (S fuel)) xname) items (current, b)
  = Returned (foldl AddChild current (map (scalarItemNode xname) strs), b) None.
Proof.
  intros Hall. revert current.
  induction Hall as [|item str items strs [Hk Hs] _ IH]; intros current; [done|].
  cbn [forEach]. unfold buildItem at 1.
  rewrite (buildValue_scalar_item fuel b item xname str) by done.
  apply IH.
Qed.

(** C10: a list item that resolves to a scalar is built, with the empty
    tag, into the new element of the item, so its text is stored in a
    text leaf with an empty name inside that element and the element
    itself has no text.  A list of such items is, when flattened, these
    elements named [locationName] added to the parent, and otherwise one
    wrapper named [locationName] that holds these elements named
    [locationNameList] (or member). *)
Theorem C10_scalar_item_node fuel b items strs current tag :
  Forall2 (fun item str => scalarKind (elemOf item) = true
                           /\ scalarText (elemOf item) = Some str) items strs ->
  let lname := xml.mkName "" (StructTag.Get tag "locationName") in
  let iname := xml.mkName "" (itemName tag) in
  Forall2 (fun item str =>
             buildValue (S fuel) b item (NewXMLElement iname) ""
             = Returned (scalarItemNode iname str, b) None) items strs
  /\ (StructTag.Get tag "flattened" <> "" ->
      buildList (buildValue (S fuel)) b (VSlice items) current tag
      = Returned (foldl AddChild current (map (scalarItemNode lname) strs), b) None)
  /\ (StructTag.Get tag "flattened" = "" ->
      buildList (buildValue (S fuel)) b (VSlice items) current tag
      = Returned (AddChild current
                    (foldl AddChild (NewXMLElement lname)
                       (map (scalarItemNode iname) strs)), b) None).
Proof.
  intros Hall lname iname. split; [|split].
  - eapply Forall2_impl; [exact Hall|]. intros item str [Hk Hs].
    by apply buildValue_scalar_item.
  - intros Hf. apply nonempty_true in Hf. unfold buildList. cbn [Len].
    rewrite Hf, forRange_items. by apply forEach_buildItem_scalars.
  - intros Hf. apply nonempty_false in Hf. unfold buildList. cbn [Len].
    rewrite Hf, forRange_items. fold (itemName tag). fold iname. fold lname.
    by rewrite (forEach_buildItem_scalars fuel iname items strs).
Qed.

Lemma C10_scalar_item_node_witness :
  buildValue 1 newBuilder (VString "a") (NewXMLElement (xml.mkName "" "Tag")) ""
  = Returned (mkXMLNode (xml.mkName "" "Tag")
                [("", [mkXMLNode (xml.mkName "" "") [] "a" []])] "" [], newBuilder) None
  /\ buildList (buildValue 1) newBuilder twoTags emptyRoot flattenedTag
     = Returned
         (mkXMLNode (xml.mkName "" "")
            [("Tag",
              [mkXMLNode (xml.mkName "" "Tag")
                 [("", [mkXMLNode (xml.mkName "" "") [] "a" []])] "" [];
               mkXMLNode (xml.mkName "" "Tag")
                 [("", [mkXMLNode (xml.mkName "" "") [] "b" []])] "" []])] "" [],
          newBuilder) None
  /\ buildList (buildValue 1) newBuilder twoTags emptyRoot (kv "locationName" "Tags")
     = Returned
         (mkXMLNode (xml.mkName "" "")
            [("Tags",
              [mkXMLNode (xml.mkName "" "Tags")
                 [("member",
                   [mkXMLNode (xml.mkName "" "member")
                      [("", [mkXMLNode (xml.mkName "" "") [] "a" []])] "" [];
                    mkXMLNode (xml.mkName "" "member")
                      [("", [mkXMLNode (xml.mkName "" "") [] "b" []])] "" []])] "" []])]
            "" [],
          newBuilder) None.
Proof.
  assert (Forall2 (fun item str => scalarKind (elemOf item) = true
                                   /\ scalarText (elemOf item) = Some str)
            [VString "a"; VString "b"] ["a"; "b"]) as Hall.
  { repeat constructor. }
  split; [|split].
  - exact (buildValue_scalar_item 0 newBuilder (VString "a") (xml.mkName "" "Tag") "a"
             eq_refl eq_refl).
  - apply (proj1 (proj2 (C10_scalar_item_node 0 newBuilder _ _ emptyRoot flattenedTag Hall))).
    vm_compute. discriminate.
  - apply (proj2 (proj2 (C10_scalar_item_node 0 newBuilder _ _ emptyRoot
                           (kv "locationName" "Tags") Hall))).
    reflexivity.
Defined.

(** * More of build.go *)

(** ** elemOf and pointers *)

Lemma elemOf_not_pointer value : KindOf (elemOf value) <> Ptr.
Proof. induction value; simpl; done. Qed.

Lemma elemOf_idempotent value : elemOf (elemOf value) = elemOf value.
Proof. induction value; simpl; done. Qed.

(** X1: [elemOf] strips every level of pointer: what it returns is never
    a pointer, a second call changes nothing, and a value that is no
    pointer is returned as it is.  So [buildValue] builds two values that
    dereference to the same value in the same way (a pointer to a value,
    at any depth, like the value itself), and builds nothing, leaving the
    tree and the builder untouched, for a pointer chain that ends in nil,
    whatever the tag. *)
Theorem X1_pointers_are_transparent :
  (forall value,
     KindOf (elemOf value) <> Ptr
     /\ elemOf (elemOf value) = elemOf value
     /\ (KindOf value <> Ptr -> elemOf value = value))
  /\ (forall fuel b v w current tag,
        elemOf v = elemOf w ->
        buildValue fuel b v current tag = buildValue fuel b w current tag)
  /\ (forall fuel b value current tag,
        buildValue fuel b (VPtr value) current tag = buildValue fuel b value current tag)
  /\ (forall fuel b value current tag,
        elemOf value = VInvalid ->
        buildValue (S fuel) b value current tag = Returned (current, b) None).
Proof.
  split; [|split; [|split]].
  - intros value. split; [apply elemOf_not_pointer|]. split; [apply elemOf_idempotent|].
    by destruct value.
  - intros fuel b v w current tag H. destruct fuel as [|fuel]; [done|].
    cbn [buildValue]. by rewrite H.
  - intros fuel b value current tag. by destruct fuel.
  - intros fuel b value current tag H. cbn [buildValue]. by rewrite H.
Qed.

Lemma X1_pointers_are_transparent_witness :
  elemOf (VPtr (VPtr (VString "x"))) = VString "x"
  /\ buildValue 1 newBuilder (VPtr (VPtr (VString "x"))) emptyRoot (kv "locationName" "Name")
     = buildValue 1 newBuilder (VString "x") emptyRoot (kv "locationName" "Name")
  /\ buildValue 1 newBuilder (VPtr VNil) emptyRoot (kv "locationName" "Name")
     = Returned (emptyRoot, newBuilder) None.
Proof.
  destruct X1_pointers_are_transparent as (Helem & Hsame & _ & Hnil).
  split; [|split].
  - rewrite <- (proj2 (proj2 (Helem (VString "x")))) by discriminate. reflexivity.
  - by apply Hsame.
  - by apply Hnil.
Defined.

(** ** What a build leaves in place *)

Lemma keepsChildren_refl n : keepsChildren n n.
Proof. by intros key. Qed.

Lemma keepsChildren_trans n1 n2 n3 :
  keepsChildren n1 n2 -> keepsChildren n2 n3 -> keepsChildren n1 n3.
Proof. intros H1 H2 key. etrans; [apply H1|apply H2]. Qed.

Lemma keepsChildren_AddChild n child : keepsChildren n (AddChild n child).
Proof.
  intros key. destruct (decide (xml.Local (Name child) = key)) as [<-|Hne].
  - rewrite childrenNamed_AddChild. by apply prefix_app_r.
  - by rewrite childrenNamed_AddChild_ne.
Qed.

Section Keeps.

Variable bv : xmlBuilder -> Value -> XMLNode -> string -> Result.

Lemma forEach_atIndex_keeps value xname idxs current b current' b' err :
  forEach (atIndex value (buildItem bv xname)) idxs (current, b)
  = Returned (current', b') err ->
  keepsChildren current current'.
Proof.
  revert current b. induction idxs as [|i idxs IH]; intros current b; cbn [forEach].
  - intros [= <- <- <-]. apply keepsChildren_refl.
  - unfold atIndex at 1. destruct (Index value i) as [item|]; [|done].
    unfold buildItem at 1.
    destruct (bv b item (NewXMLElement xname) "") as [[c1 b1] [e|]| |]; try done.
    + intros [= <- <- <-]. apply keepsChildren_AddChild.
    + intros H. apply IH in H. eapply keepsChildren_trans; [|exact H].
      apply keepsChildren_AddChild.
Qed.

Lemma buildList_keeps b value current tag current' b' err :
  buildList bv b value current tag = Returned (current', b') err ->
  keepsChildren current current'.
Proof.
  unfold buildList, forRange. destruct (Len value) as [n|]; [|done].
  destruct (nonempty _); [apply forEach_atIndex_keeps|].
  destruct (forEach _ _ _) as [[l1 b1] e| |]; try done.
  intros [= <- <- <-]. apply keepsChildren_AddChild.
Qed.

(** A structure leaves its parent as it was or adds one element to it. *)
Lemma buildMembers_one_child b value current tag current' b' err :
  buildMembers bv b value current tag = Returned (current', b') err ->
  current' = current \/ exists child, err = None /\ current' = AddChild current child.
Proof.
  unfold buildMembers.
  destruct (if nonempty (StructTag.Get tag "xmlURI") then _ else _) as [child0 b0].
  destruct (NumField value) as [n|]; [|done].
  destruct (forRange n _ _) as [[[c1 b1] fa] [e|]| |]; try done.
  - intros [= <- <- <-]. by left.
  - destruct fa; intros [= <- <- <-]; [right; by exists c1|by left].
Qed.

Lemma buildStruct_one_child b value current tag current' b' err :
  buildStruct bv b value current tag = Returned (current', b') err ->
  current' = current \/ exists child, err = None /\ current' = AddChild current child.
Proof.
  unfold buildStruct.
  destruct (IsValid value); [|intros [= <- <- <-]; by left]. cbn [negb].
  destruct (nonempty _); [|apply buildMembers_one_child].
  destruct (TypeFieldByName _ _); [|done]. destruct (FieldByName _ _); [|done].
  destruct (IsValid _); [|intros [= <- <- <-]; by left]. apply buildMembers_one_child.
Qed.

Lemma buildStruct_keeps b value current tag current' b' err :
  buildStruct bv b value current tag = Returned (current', b') err ->
  keepsChildren current current'.
Proof.
  intros H. apply buildStruct_one_child in H as [->|(child & _ & ->)].
  - apply keepsChildren_refl.
  - apply keepsChildren_AddChild.
Qed.

End Keeps.

Lemma buildValue_keeps fuel b value current tag current' b' err :
  buildValue fuel b value current tag = Returned (current', b') err ->
  keepsChildren current current'.
Proof.
  destruct fuel as [|fuel]; [done|].
  dispatch; try done; try (intros [= <- <- <-]; apply keepsChildren_refl);
    eauto using buildStruct_keeps, buildList_keeps.
  unfold buildScalar. destruct (IsValid _); [|done]. cbn [negb].
  destruct (scalarText _); [|intros [= <- <- <-]; apply keepsChildren_refl].
  destruct (nonempty _); intros [= <- <- <-].
  - by intros key.
  - apply keepsChildren_AddChild.
Qed.

(** X2: a build only adds to the node it is given.  Whenever [buildValue]
    returns, also with an error, the node has the name and the text it
    had, its attributes are the ones it had with maybe more after them,
    every group of its children holds the children it held, in their
    order, with maybe more after them, and the namespace table has every
    prefix it had. *)
Theorem X2_build_only_adds fuel b value current tag current' b' err :
  buildValue fuel b value current tag = Returned (current', b') err ->
  Name current' = Name current
  /\ Text current' = Text current
  /\ (exists extra, Attr current' = Attr current ++ extra)
  /\ (forall key, childrenNamed current key `prefix_of` childrenNamed current' key)
  /\ dom (namespaces b) ⊆ dom (namespaces b').
Proof.
  intros H.
  destruct (buildValue_head _ _ _ _ _ _ _ _ H) as [Hn Ht].
  destruct (buildValue_extends _ _ _ _ _ _ _ _ H) as [Ha Hd].
  pose proof (buildValue_keeps _ _ _ _ _ _ _ _ H) as Hk.
  by repeat split.
Qed.

Lemma X2_build_only_adds_witness :
  exists current' b',
    buildValue 2 newBuilder namedInput usedNode
      (kv "xmlPrefix" "p" +:+ " " +:+ kv "xmlURI" "urn:x") = Returned (current', b') None
    /\ Name current' = Name usedNode
    /\ Text current' = Text usedNode
    /\ (exists extra, Attr current' = Attr usedNode ++ extra)
    /\ (forall key, childrenNamed usedNode key `prefix_of` childrenNamed current' key)
    /\ dom (namespaces newBuilder) ⊆ dom (namespaces b').
Proof.
  eexists _, _. split; [reflexivity|].
  exact (X2_build_only_adds 2 newBuilder namedInput usedNode
           (kv "xmlPrefix" "p" +:+ " " +:+ kv "xmlURI" "urn:x") _ _ None eq_refl).
Defined.

(** ** The namespace of a structure *)



(** ** The error of a build *)

(** X4: what a build returns to its caller (nil, an error, or a panic)
    depends on the value and the tag only: it is the same in every tree
    and with every namespace table.  So is what [buildStruct] and
    [buildList] return. *)
Theorem X4_error_independent_of_tree fuel b b' value current current' tag :
  status (buildValue fuel b value current tag)
  = status (buildValue fuel b' value current' tag)
  /\ status (buildStruct (buildValue fuel) b value current tag)
     = status (buildStruct (buildValue fuel) b' value current' tag)
  /\ status (buildList (buildValue fuel) b value current tag)
     = status (buildList (buildValue fuel) b' value current' tag).
Proof.
  split; [apply buildValue_status|].
  split; [apply buildStruct_status|apply buildList_status];
    intros; apply buildValue_status.
Qed.

(** ** The depth of the recursion *)

Section Agree.

Variables bv bv' : xmlBuilder -> Value -> XMLNode -> string -> Result.
Variable n : nat.
Hypothesis agree : agreeBelow n bv bv'.

Lemma buildList_agree b value current tag :
  depth value <= n ->
  buildList bv b value current tag = buildList bv' b value current tag.
Proof.
  intros Hd.
  assert (forall xname idxs s,
            forEach (atIndex value (buildItem bv xname)) idxs s
            = forEach (atIndex value (buildItem bv' xname)) idxs s) as Hloop.
  { intros xname idxs. induction idxs as [|i idxs IH]; intros [cur b0]; cbn [forEach]; [done|].
    unfold atIndex at 1 3. destruct (Index value i) as [item|] eqn:E; [|done].
    unfold buildItem at 1 3. rewrite (agree b0 item).
    - destruct (bv' b0 item (NewXMLElement xname) "") as [[c1 b1] [e|]| |]; try done.
    - apply depth_item in E. lia. }
  unfold buildList, forRange. destruct (Len value); [|done].
  by rewrite !Hloop.
Qed.

Lemma buildMembers_agree b value current tag :
  depth value <= n ->
  buildMembers bv b value current tag = buildMembers bv' b value current tag.
Proof.
  intros Hd.
  assert (forall idxs s, forEach (buildField bv value) idxs s
                         = forEach (buildField bv' value) idxs s) as Hloop.
  { intros idxs. induction idxs as [|i idxs IH]; intros [[child b0] fa]; cbn [forEach]; [done|].
    unfold buildField at 1 3, Field.
    destruct (fieldsOf value) as [fields|] eqn:Ef; [|done].
    destruct (fields !! i) as [[field fvalue]|] eqn:E; [|done].
    unfold buildMember.
    destruct (unexported _) as [[|]|]; try done.
    destruct (nonempty _); try done.
    rewrite (agree b0 (elemOf fvalue)).
    - destruct (bv' b0 (elemOf fvalue) child (memberTag field)) as [[c1 b1] [e|]| |];
        try done.
    - rewrite depth_elemOf. apply list_elem_of_lookup_2 in E.
      pose proof (depth_field _ _ _ Ef E). simpl in *. lia. }
  unfold buildMembers, forRange.
  destruct (if nonempty (StructTag.Get tag "xmlURI") then _ else _) as [child0 b0].
  destruct (NumField value); [|done]. by rewrite Hloop.
Qed.

Lemma buildStruct_agree b value current tag :
  depth value <= n ->
  buildStruct bv b value current tag = buildStruct bv' b value current tag.
Proof.
  intros Hd. unfold buildStruct. destruct (IsValid value); [|done]. cbn [negb].
  destruct (nonempty _); [|by apply buildMembers_agree].
  unfold TypeFieldByName, FieldByName.
  destruct (fieldsOf value) as [fields|] eqn:Ef; [|done].
  destruct (findField _ fields) as [g|] eqn:Eg; cbn [fmap option_fmap option_map]; [|done].
  destruct (IsValid (elemOf g.2)); [|done]. cbn [negb].
  apply buildMembers_agree. rewrite depth_elemOf.
  assert (g ∈ fields) as Hin.
  { clear -Eg. induction fields as [|h fields IH]; [done|]. simpl in Eg.
    destruct (String.eqb _ _); [injection Eg as ->; left|right; auto]. }
  pose proof (depth_field _ _ _ Ef Hin). lia.
Qed.

End Agree.

Lemma buildValue_bound_irrelevant fuel fuel' b value current tag :
  depth value < fuel -> depth value < fuel' ->
  buildValue fuel b value current tag = buildValue fuel' b value current tag.
Proof.
  revert fuel' b value current tag.
  induction fuel as [|fuel IH]; intros fuel' b value current tag Hd Hd'; [lia|].
  destruct fuel' as [|fuel']; [lia|].
  assert (agreeBelow (depth (elemOf value)) (buildValue fuel) (buildValue fuel')) as Hag.
  { intros b0 v c t Hv. rewrite depth_elemOf in Hv. apply IH; lia. }
  dispatch; try done.
  - by apply (buildStruct_agree _ _ (depth (elemOf value))).
  - by apply (buildList_agree _ _ (depth (elemOf value))).
Qed.

(** X5: the recursion of [buildValue] goes as deep as the value is nested
    and no deeper: with any bound above the nesting depth of the value
    the build comes to its end (it returns or panics), and two such
    bounds give the same result. *)
Theorem X5_recursion_depth fuel fuel' b value current tag :
  depth value < fuel -> depth value < fuel' ->
  buildValue fuel b value current tag <> OutOfFuel
  /\ buildValue fuel b value current tag = buildValue fuel' b value current tag.
Proof.
  intros Hd Hd'. split; [by apply buildValue_total|by apply buildValue_bound_irrelevant].
Qed.

Lemma X5_recursion_depth_witness :
  buildValue 3 newBuilder taggedInput emptyRoot "" <> OutOfFuel
  /\ buildValue 3 newBuilder taggedInput emptyRoot ""
     = buildValue 7 newBuilder taggedInput emptyRoot "".
Proof.
  apply (X5_recursion_depth 3 7 newBuilder taggedInput emptyRoot ""); vm_compute; lia.
Defined.

(** ** The members of a structure *)

Lemma unexported_first_byte c rest :
  unexported (String c rest)
  = Some ((code c <? 128)%Z && negb ((65 <=? code c)%Z && (code c <=? 90)%Z)).
Proof. destruct c as [[] [] [] [] [] [] [] []]; reflexivity. Qed.

Lemma forEach_buildMember_filter bv fields s :
  Forall (fun f : StructField * Value => FieldName f.1 <> "") fields ->
  forEach (buildMember bv) fields s
  = forEach (buildMember bv) (List.filter bodyMember fields) s.
Proof.
  intros Hnamed. revert s.
  induction Hnamed as [|f fields Hn _ IH]; intros s; [done|].
  cbn [forEach List.filter]. destruct (bodyMember f) eqn:Hb.
  - cbn [forEach]. destruct (buildMember bv f s) as [s' [e|]| |]; auto.
  - rewrite buildMember_skip by done. apply IH.
Qed.

(** X6: the loop of [buildStruct] hands to [buildValue] exactly the
    fields whose name does not start with an ASCII byte other than a
    capital letter and whose tag has no location; the other fields count
    for nothing: a structure (built without payload unwrapping) builds
    exactly as the structure of its handed members alone. *)
Theorem X6_only_body_members bv b tname fields current tag :
  StructTag.Get tag "payload" = "" ->
  Forall (fun f : StructField * Value => FieldName f.1 <> "") fields ->
  buildStruct bv b (VStruct tname fields) current tag
  = buildStruct bv b (VStruct tname (List.filter bodyMember fields)) current tag
  /\ (forall c rest ftag fvalue,
        bodyMember (mkField (String c rest) ftag, fvalue)
        = negb ((code c <? 128)%Z && negb ((65 <=? code c)%Z && (code c <=? 90)%Z))
          && String.eqb (StructTag.Get ftag "location") "").
Proof.
  intros Hp Hnamed. split.
  - unfold buildStruct. cbn [IsValid negb]. rewrite Hp. cbn [nonempty String.eqb negb].
    unfold buildMembers.
    destruct (if nonempty (StructTag.Get tag "xmlURI") then _ else _) as [child0 b0].
    cbn [NumField fieldsOf]. rewrite !forRange_fields.
    by rewrite <- forEach_buildMember_filter.
  - intros c rest ftag fvalue. unfold bodyMember. cbn [fst FieldName FieldTag].
    rewrite unexported_first_byte. unfold nonempty.
    destruct ((code c <? 128)%Z && _); [done|]. by rewrite negb_involutive.
Qed.

Lemma X6_only_body_members_witness :
  buildStruct (buildValue 1) newBuilder (VStruct "Input" mixedInput) emptyRoot ""
  = buildStruct (buildValue 1) newBuilder
      (VStruct "Input" [(mkField "Name" "", VString "n");
                        (mkField "Size" "", VInteger int64 7)]) emptyRoot "".
Proof.
  refine (proj1 (X6_only_body_members (buildValue 1) newBuilder "Input" mixedInput
                   emptyRoot "" eq_refl _)).
  repeat (apply List.Forall_cons; [discriminate|]). apply List.Forall_nil.
Defined.

(** ** The name of a member *)

Lemma append_assoc (s1 s2 s3 : string) : (s1 +:+ s2) +:+ s3 = s1 +:+ s2 +:+ s3.
Proof.
  induction s1 as [|c s1 IH]; [reflexivity|].
  change (String c ((s1 +:+ s2) +:+ s3) = String c (s1 +:+ s2 +:+ s3)). by f_equal.
Qed.

Lemma append_empty_r (s : string) : s +:+ "" = s.
Proof.
  induction s as [|c s IH]; [reflexivity|].
  change (String c (s +:+ "") = String c s). by f_equal.
Qed.

Lemma plainByte_codes c :
  plainByte c = true ->
  (code c =? 34)%Z = false /\ (code c =? 92)%Z = false /\ (code c =? 10)%Z = false
  /\ (128 <=? code c)%Z = false.
Proof.
  unfold plainByte. rewrite !andb_true_iff, !negb_true_iff. intros [[[H1 H2] H3] H4].
  repeat split; try done. lia.
Qed.

(** The scanner reads plain bytes into the value it is in. *)
Lemma run_plain key name q s rest :
  plainName s = true ->
  StructTag.run key (StructTag.InValue name q) (s +:+ rest)
  = StructTag.run key (StructTag.InValue name (q +:+ s)) rest.
Proof.
  revert q. induction s as [|c s IH]; intros q Hs; simpl.
  - by rewrite append_empty_r.
  - simpl in Hs. apply andb_true_iff in Hs as [Hc Hs].
    destruct (plainByte_codes c Hc) as (-> & -> & _ & _).
    rewrite IH by done. unfold StructTag.snoc. by rewrite append_assoc.
Qed.

Lemma chr_code c : chr (code c) = c.
Proof. unfold chr, code. by rewrite N2Z.id, Ascii.ascii_N_embedding. Qed.

Lemma string_of_bytes_of s : string_of (bytes_of s) = s.
Proof. induction s as [|c s IH]; simpl; [done|by rewrite chr_code, IH]. Qed.

Lemma unquote_loop_plain n s :
  plainName s = true -> String.length s <= n ->
  strconv.unquote_loop n (bytes_of s) = Some (bytes_of s).
Proof.
  revert n. induction s as [|c s IH]; intros n Hs Hn; [by destruct n|].
  simpl in Hs, Hn. apply andb_true_iff in Hs as [Hc Hs].
  destruct n as [|n]; [lia|].
  destruct (plainByte_codes c Hc) as (H34 & H92 & H10 & H128).
  cbn [bytes_of strconv.unquote_loop]. rewrite H10.
  unfold strconv.UnquoteChar. rewrite H34, H128, H92. cbn [negb].
  rewrite IH by (done || lia). done.
Qed.

(** A plain value is unquoted to itself. *)
Lemma Unquote_plain s : plainName s = true -> strconv.Unquote s = Some s.
Proof.
  intros Hs. unfold strconv.Unquote.
  by rewrite unquote_loop_plain, string_of_bytes_of.
Qed.

(** The pair that [buildStruct] appends, read from between two pairs. *)
Lemma run_locationName key name :
  plainName name = true ->
  StructTag.run key StructTag.AtPair (" locationName:" +:+ dq +:+ name +:+ dq)
  = if String.eqb key "locationName" then StructTag.Stop (Some name)
    else StructTag.AtPair.
Proof.
  intros Hn.
  change (StructTag.run key StructTag.AtPair (" locationName:" +:+ dq +:+ name +:+ dq))
    with (StructTag.run key (StructTag.InValue "locationName" "") (name +:+ dq)).
  rewrite run_plain by done. change ("" +:+ name) with name.
  change (StructTag.run key (StructTag.InValue "locationName" name) dq)
    with (if String.eqb key "locationName" then StructTag.Stop (strconv.Unquote name)
          else StructTag.AtPair).
  by rewrite Unquote_plain.
Qed.

(** The tag a member without [locationName] is built with. *)
Lemma memberTag_name field :
  plainName (FieldName field) = true ->
  StructTag.lacks (FieldTag field) "locationName" ->
  StructTag.Get (memberTag field) "locationName" = FieldName field.
Proof.
  intros Hplain Hl. unfold memberTag.
  assert (StructTag.Get (FieldTag field) "locationName" = "") as ->.
  { unfold StructTag.Get, StructTag.Lookup. by rewrite Hl. }
  cbn [String.eqb]. unfold StructTag.Get, StructTag.Lookup.
  rewrite run_append, Hl, run_locationName by done. done.
Qed.

Lemma memberTag_lacks field key :
  plainName (FieldName field) = true ->
  key <> "locationName" ->
  StructTag.lacks (FieldTag field) key ->
  StructTag.Get (memberTag field) key = "".
Proof.
  intros Hplain Hk Hl. unfold memberTag.
  destruct (String.eqb (StructTag.Get (FieldTag field) "locationName") "").
  - unfold StructTag.Get, StructTag.Lookup.
    rewrite run_append, Hl, run_locationName by done.
    apply String.eqb_neq in Hk. by rewrite Hk.
  - unfold StructTag.Get, StructTag.Lookup. by rewrite Hl.
Qed.

(** X7: a member whose tag (a complete sequence of pairs) has no
    [locationName] is built under the name of its field: in the tag the
    member is built with, [locationName] is the field name, for a field
    name of plain ASCII bytes.  A member whose tag has a non-empty
    [locationName] is built with its tag as it is.  In both cases every
    other key keeps the value it has in the tag of the field. *)
Theorem X7_member_name field :
  plainName (FieldName field) = true ->
  (StructTag.lacks (FieldTag field) "locationName" ->
   StructTag.Get (memberTag field) "locationName" = FieldName field)
  /\ (StructTag.Get (FieldTag field) "locationName" <> "" ->
      memberTag field = FieldTag field)
  /\ (forall key,
        key <> "locationName" ->
        StructTag.lacks (FieldTag field) key
        \/ (exists v, StructTag.Lookup (FieldTag field) key = Some v) ->
        StructTag.Get (memberTag field) key = StructTag.Get (FieldTag field) key).
Proof.
  intros Hplain. split; [|split].
  - by apply memberTag_name.
  - intros Hne. unfold memberTag. apply String.eqb_neq in Hne. by rewrite Hne.
  - intros key Hk [Hl|[v Hv]].
    + rewrite memberTag_lacks by done.
      unfold StructTag.Get, StructTag.Lookup. by rewrite Hl.
    + unfold memberTag.
      destruct (String.eqb (StructTag.Get (FieldTag field) "locationName") ""); [|done].
      rewrite (Get_append_found _ _ _ _ Hv).
      unfold StructTag.Get. by rewrite Hv.
Qed.

Lemma X7_member_name_witness :
  StructTag.Get (memberTag (mkField "VersionId" (kv "type" "string"))) "locationName"
  = "VersionId"
  /\ StructTag.Get (memberTag (mkField "VersionId" (kv "type" "string"))) "type"
     = StructTag.Get (kv "type" "string") "type"
  /\ memberTag (mkField "Id" (kv "locationName" "ID")) = kv "locationName" "ID".
Proof.
  split; [|split].
  - by apply (proj1 (X7_member_name (mkField "VersionId" (kv "type" "string")) eq_refl)).
  - apply (proj2 (proj2 (X7_member_name (mkField "VersionId" (kv "type" "string"))
                           eq_refl))); [discriminate|].
    right. by exists "string".
  - apply (proj1 (proj2 (X7_member_name (mkField "Id" (kv "locationName" "ID")) eq_refl))).
    vm_compute. discriminate.
Defined.

(** ** Byte slices and times *)

Lemma resolveType_untyped tag value :
  StructTag.Get tag "type" = "" ->
  resolveType tag value
  = match KindOf value with
    | Struct => "structure" | Slice => "list" | Map => "map" | _ => ""
    end.
Proof. intros Ht. unfold resolveType. rewrite Ht. by destruct (KindOf value). Qed.

(** A byte, as an item of a list, has no text form. *)
Lemma buildValue_uint8 fuel b b0 child :
  buildValue (S fuel) b (VInteger uint8 b0) child ""
  = Returned (child, b) (Some (UnsupportedScalarType "" (VInteger uint8 b0) "uint8")).
Proof. reflexivity. Qed.

Lemma buildValue_bytes_untyped fuel b b0 rest current tag :
  StructTag.Get tag "location" = "" ->
  StructTag.Get tag "type" = "" ->
  exists current',
    buildValue (S (S fuel)) b (VBytes (b0 :: rest)) current tag
    = Returned (current', b)
        (Some (UnsupportedScalarType "" (VInteger uint8 b0) "uint8")).
Proof.
  intros Hl Ht. rewrite buildValue_dispatch by done.
  cbv zeta. rewrite resolveType_untyped by done.
  change (KindOf (elemOf (VBytes (b0 :: rest)))) with Slice. cbv iota.
  change (String.eqb "list" "structure") with false.
  change (String.eqb "list" "list") with true. cbv iota.
  unfold buildList. cbn [elemOf Len length]. unfold forRange. cbn [seq forEach].
  unfold atIndex at 1 3. cbn [Index lookup list_lookup fmap option_fmap option_map].
  unfold buildItem. rewrite !buildValue_uint8.
  destruct (nonempty _); eauto.
Qed.

Lemma buildValue_time_untyped fuel b t current tag :
  StructTag.Get tag "location" = "" ->
  StructTag.Get tag "type" = "" ->
  StructTag.Get tag "payload" = "" ->
  StructTag.Get tag "xmlURI" = "" ->
  buildValue (S fuel) b (VTime t) current tag = Returned (current, b) None.
Proof.
  intros Hl Ht Hp Hu. rewrite buildValue_dispatch by done.
  cbv zeta. rewrite resolveType_untyped by done.
  change (KindOf (elemOf (VTime t))) with Struct. cbv iota.
  change (String.eqb "structure" "structure") with true. cbv iota.
  change (TypeFieldByName (elemOf (VTime t)) "SDKShapeTraits") with (Some (@None StructField)).
  cbv iota. unfold buildStruct. cbn [elemOf IsValid negb]. rewrite Hp.
  cbn [nonempty String.eqb negb]. unfold buildMembers. rewrite Hu.
  cbn [nonempty String.eqb negb]. reflexivity.
Qed.

(** With a type in its tag that is none of the three containers, a value
    is built as a scalar whatever its kind. *)
Lemma buildValue_typed_scalar fuel b value current tag :
  IsValid (elemOf value) = true ->
  StructTag.Get tag "location" = "" ->
  StructTag.Get tag "type" <> "" ->
  StructTag.Get tag "type" <> "structure" ->
  StructTag.Get tag "type" <> "list" ->
  StructTag.Get tag "type" <> "map" ->
  buildValue (S fuel) b value current tag = buildScalar b (elemOf value) current tag.
Proof.
  intros Hv Hl H0 H1 H2 H3. rewrite buildValue_dispatch by done. cbv zeta.
  unfold resolveType. apply String.eqb_neq in H0, H1, H2, H3.
  by rewrite H0, H1, H2, H3.
Qed.

(** X8: a byte slice and a [time.Time] are text only under a tag that
    gives them a type.  With no [type] in the tag a non-empty byte slice
    is resolved to a list, whose first item, a [uint8], is rejected by
    [buildScalar] (under the empty parameter name), and a [time.Time] is
    resolved to a structure of unexported fields, for which nothing is
    built and no error is returned.  With a type that is none of
    structure, list and map, both become a text leaf: the standard base64
    of the bytes, the ISO 8601 text of the time. *)
Theorem X8_bytes_and_time_need_a_type fuel b current tag :
  StructTag.Get tag "location" = "" ->
  (StructTag.Get tag "type" = "" ->
   (forall b0 rest,
      exists current',
        buildValue (S (S fuel)) b (VBytes (b0 :: rest)) current tag
        = Returned (current', b)
            (Some (UnsupportedScalarType "" (VInteger uint8 b0) "uint8")))
   /\ (forall t,
         StructTag.Get tag "payload" = "" -> StructTag.Get tag "xmlURI" = "" ->
         buildValue (S fuel) b (VTime t) current tag = Returned (current, b) None))
  /\ (StructTag.Get tag "type" <> "" -> StructTag.Get tag "type" <> "structure" ->
      StructTag.Get tag "type" <> "list" -> StructTag.Get tag "type" <> "map" ->
      StructTag.Get tag "xmlAttribute" = "" ->
      (forall bs,
         buildValue (S fuel) b (VBytes bs) current tag
         = Returned (AddChild current
                       (mkXMLNode (xml.mkName "" (StructTag.Get tag "locationName")) []
                                  (base64.EncodeToString bs) []), b) None)
      /\ (forall t,
            buildValue (S fuel) b (VTime t) current tag
            = Returned (AddChild current
                          (mkXMLNode (xml.mkName "" (StructTag.Get tag "locationName")) []
                                     (time.FormatISO8601UTC t) []), b) None)).
Proof.
  intros Hl. split.
  - intros Ht. split.
    + intros b0 rest. by apply buildValue_bytes_untyped.
    + intros t Hp Hu. by apply buildValue_time_untyped.
  - intros H0 H1 H2 H3 Ha. split; intros x;
      rewrite buildValue_typed_scalar by done;
      unfold buildScalar; cbn [elemOf IsValid negb scalarText]; by rewrite Ha.
Qed.

Lemma X8_bytes_and_time_need_a_type_witness :
  (exists current',
     buildValue 2 newBuilder (VBytes [104; 105]%Z) emptyRoot (kv "locationName" "Body")
     = Returned (current', newBuilder)
         (Some (UnsupportedScalarType "" (VInteger uint8 104) "uint8")))
  /\ buildValue 1 newBuilder (VBytes [104; 105]%Z) emptyRoot
       (kv "locationName" "Body" +:+ " " +:+ kv "type" "blob")
     = Returned (AddChild emptyRoot
                   (mkXMLNode (xml.mkName "" "Body") [] "aGk=" []), newBuilder) None.
Proof.
  split.
  - apply (proj1 (X8_bytes_and_time_need_a_type 0 newBuilder emptyRoot
                    (kv "locationName" "Body") eq_refl)). reflexivity.
  - refine (proj1 (proj2 (X8_bytes_and_time_need_a_type 0 newBuilder emptyRoot
                    (kv "locationName" "Body" +:+ " " +:+ kv "type" "blob") eq_refl)
                    _ _ _ _ eq_refl) [104; 105]%Z); vm_compute; discriminate.
Defined.

(** ** BuildXML *)

Lemma forEach_buildMember_none bv fields s :
  Forall (fun f : StructField * Value => FieldName f.1 <> "" /\ bodyMember f = false)
         fields ->
  forEach (buildMember bv) fields s = Returned s None.
Proof.
  intros H. induction H as [|f fields [Hn Hb] _ IH]; cbn [forEach]; [done|].
  by rewrite buildMember_skip.
Qed.

Lemma buildStruct_no_body bv b tname fields current tag :
  Forall (fun f : StructField * Value => FieldName f.1 <> "" /\ bodyMember f = false)
         fields ->
  StructTag.Get tag "payload" = "" ->
  exists b', buildStruct bv b (VStruct tname fields) current tag
             = Returned (current, b') None.
Proof.
  intros Hf Hp. unfold buildStruct. cbn [IsValid negb]. rewrite Hp.
  cbn [nonempty String.eqb negb]. unfold buildMembers.
  destruct (if nonempty (StructTag.Get tag "xmlURI") then _ else _) as [child0 b0].
  cbn [NumField fieldsOf]. rewrite forRange_fields, forEach_buildMember_none by done.
  by exists b0.
Qed.

Lemma buildValue_structure fuel b value current :
  KindOf (elemOf value) = Struct ->
  buildValue (S fuel) b value current ""
  = match TypeFieldByName (elemOf value) "SDKShapeTraits" with
    | None => Panicked
    | Some (Some field) =>
      buildStruct (buildValue fuel) b (elemOf value) current ("" +:+ " " +:+ FieldTag field)
    | Some None => buildStruct (buildValue fuel) b (elemOf value) current ""
    end.
Proof.
  intros Hk. rewrite buildValue_dispatch; [|by destruct (elemOf value)|done].
  cbv zeta. rewrite resolveType_untyped by done. by rewrite Hk.
Qed.

(** X9: of a structure, [BuildXML] hands at most one element to the
    serializer.  When the build of a root that is a structure (behind any
    pointers) returns no error, the root element is left either without
    children, and [BuildXML] returns nil without calling the serializer,
    or with exactly one child, the element of the structure, and
    [BuildXML] returns what the serializer makes of that element. *)
Theorem X9_BuildXML_structure params root' b' :
  KindOf (elemOf params) = Struct ->
  buildValue (S (depth params)) newBuilder params emptyRoot "" = Returned (root', b') None ->
  (root' = emptyRoot /\ BuildXML params = Nil)
  \/ (exists child,
        root' = AddChild emptyRoot child
        /\ Children root' = [(xml.Local (Name child), [child])]
        /\ BuildXML params = StructToXML child).
Proof.
  intros Hk H. unfold BuildXML. unfold newBuilder, emptyRoot in *. rewrite H.
  rewrite buildValue_structure in H by done.
  assert (root' = NewXMLElement (xml.mkName "" "")
          \/ exists child, None = (@None error)
                           /\ root' = AddChild (NewXMLElement (xml.mkName "" "")) child)
    as [->|(child & _ & ->)].
  { destruct (TypeFieldByName _ _) as [[field|]|]; [| |done];
      by apply buildStruct_one_child in H. }
  - by left.
  - right. by exists child.
Qed.

Lemma X9_BuildXML_structure_witness :
  exists child,
    Children child = [("Name", [mkXMLNode (xml.mkName "" "Name") [] "n" []]);
                      ("Size", [mkXMLNode (xml.mkName "" "Size") [] "7" []])]
    /\ BuildXML (VPtr (VStruct "Input" mixedInput)) = StructToXML child.
Proof.
  destruct (X9_BuildXML_structure (VPtr (VStruct "Input" mixedInput))
              (AddChild emptyRoot
                 (mkXMLNode (xml.mkName "" "")
                    [("Name", [mkXMLNode (xml.mkName "" "Name") [] "n" []]);
                     ("Size", [mkXMLNode (xml.mkName "" "Size") [] "7" []])] "" []))
              newBuilder eq_refl eq_refl) as [[Hroot _]|(child & _ & Hch & Hbuilt)].
  - discriminate Hroot.
  - exists child. split; [|exact Hbuilt].
    cbn [Children AddChild emptyRoot NewXMLElement addToGroup] in Hch.
    injection Hch as _ <-. reflexivity.
Defined.

(** X10: a structure all of whose fields are located elsewhere or
    unexported contributes nothing: [buildStruct] (without payload
    unwrapping) leaves the tree as it is and returns nil, and [BuildXML]
    of such a structure (declaring no [SDKShapeTraits]) returns nil
    without calling the serializer. *)
Theorem X10_nothing_to_write tname fields :
  Forall (fun f : StructField * Value => FieldName f.1 <> "" /\ bodyMember f = false)
         fields ->
  (forall bv b current tag,
     StructTag.Get tag "payload" = "" ->
     exists b', buildStruct bv b (VStruct tname fields) current tag
                = Returned (current, b') None)
  /\ (findField "SDKShapeTraits" fields = None ->
      BuildXML (VStruct tname fields) = Nil
      /\ BuildXML (VPtr (VStruct tname fields)) = Nil).
Proof.
  intros Hf. split.
  - intros bv b current tag Hp. by apply buildStruct_no_body.
  - intros Hnone.
    assert (forall fuel, buildValue (S fuel) (mkBuilder ∅) (VStruct tname fields)
                           (NewXMLElement (xml.mkName "" "")) ""
                         = Returned (NewXMLElement (xml.mkName "" ""), mkBuilder ∅) None)
      as Hbuild.
    { intros fuel. rewrite buildValue_structure by done.
      unfold TypeFieldByName. cbn [elemOf fieldsOf]. rewrite Hnone.
      cbn [fmap option_fmap option_map].
      unfold buildStruct. cbn [IsValid negb].
      change (nonempty (StructTag.Get "" "payload")) with false. cbv iota.
      unfold buildMembers.
      change (nonempty (StructTag.Get "" "xmlURI")) with false. cbv iota.
      cbn [NumField fieldsOf]. by rewrite forRange_fields, forEach_buildMember_none. }
    split; unfold BuildXML.
    + by rewrite Hbuild.
    + change (buildValue (S (depth (VPtr (VStruct tname fields)))) (mkBuilder ∅)
                (VPtr (VStruct tname fields)) (NewXMLElement (xml.mkName "" "")) "")
        with (buildValue (S (depth (VStruct tname fields))) (mkBuilder ∅)
                (VStruct tname fields) (NewXMLElement (xml.mkName "" "")) "").
      by rewrite Hbuild.
Qed.

Lemma X10_nothing_to_write_witness :
  BuildXML (VStruct "HeadObjectInput" headInput) = Nil.
Proof.
  refine (proj1 (proj2 (X10_nothing_to_write "HeadObjectInput" headInput _) eq_refl)).
  repeat (apply List.Forall_cons; [split; [discriminate|reflexivity]|]).
  apply List.Forall_nil.
Defined.

(** ** A tag that contradicts the value *)

Lemma fieldsOf_not_struct value : KindOf value <> Struct -> fieldsOf value = None.
Proof. by destruct value. Qed.

(** X11: a tag that makes a structure or a list of a value that is none
    makes the builder panic.  A valid value that is no structure panics
    under [type:"structure"] (in [Type().FieldByName]) and as the promoted
    payload of a structure (in [NumField]); a value that is no slice, map
    or string panics under [type:"list"] (in [Len]). *)
Theorem X11_contradicting_tag_panics fuel b current tag :
  (forall value,
     IsValid (elemOf value) = true -> KindOf (elemOf value) <> Struct ->
     StructTag.Get tag "location" = "" -> StructTag.Get tag "type" = "structure" ->
     buildValue (S fuel) b value current tag = Panicked)
  /\ (forall value,
        IsValid (elemOf value) = true ->
        KindOf (elemOf value) <> Slice -> KindOf (elemOf value) <> Map ->
        KindOf (elemOf value) <> String_ ->
        StructTag.Get tag "location" = "" -> StructTag.Get tag "type" = "list" ->
        buildValue (S fuel) b value current tag = Panicked)
  /\ (forall value field fvalue,
        IsValid value = true -> StructTag.Get tag "payload" <> "" ->
        TypeFieldByName value (StructTag.Get tag "payload") = Some field ->
        FieldByName value (StructTag.Get tag "payload") = Some fvalue ->
        IsValid (elemOf fvalue) = true -> KindOf (elemOf fvalue) <> Struct ->
        buildStruct (buildValue fuel) b value current tag = Panicked).
Proof.
  split; [|split].
  - intros value Hv Hk Hl Ht. rewrite buildValue_dispatch by done. cbv zeta.
    unfold resolveType. rewrite Ht.
    change (String.eqb "structure" "") with false.
    change (String.eqb "structure" "structure") with true. cbv iota.
    unfold TypeFieldByName. by rewrite fieldsOf_not_struct.
  - intros value Hv H1 H2 H3 Hl Ht. rewrite buildValue_dispatch by done. cbv zeta.
    unfold resolveType. rewrite Ht.
    change (String.eqb "list" "") with false.
    change (String.eqb "list" "structure") with false.
    change (String.eqb "list" "list") with true. cbv iota.
    unfold buildList. by destruct (elemOf value).
  - intros value field fvalue Hv Hp Ht Hf Hfv Hk.
    unfold buildStruct. apply nonempty_true in Hp. rewrite Hv, Hp, Ht, Hf, Hfv.
    cbn [negb]. unfold buildMembers, NumField. rewrite fieldsOf_not_struct by done.
    match goal with
    | |- (let '(_, _) := ?p in _) = _ => by destruct p
    end.
Qed.

Lemma X11_contradicting_tag_panics_witness :
  buildValue 1 newBuilder (VMap []) emptyRoot (kv "type" "structure") = Panicked
  /\ buildValue 1 newBuilder (VBool true) emptyRoot (kv "type" "list") = Panicked
  /\ buildStruct (buildValue 1) newBuilder
       (VStruct "PutObjectInput" [(mkField "Body" (kv "type" "blob"), VBytes [104]%Z)])
       emptyRoot (kv "payload" "Body") = Panicked.
Proof.
  destruct (X11_contradicting_tag_panics 0 newBuilder emptyRoot (kv "type" "structure"))
    as (H1 & _ & _).
  destruct (X11_contradicting_tag_panics 0 newBuilder emptyRoot (kv "type" "list"))
    as (_ & H2 & _).
  destruct (X11_contradicting_tag_panics 1 newBuilder emptyRoot (kv "payload" "Body"))
    as (_ & _ & H3).
  split; [|split].
  - by apply H1.
  - by apply H2.
  - eapply H3; [reflexivity|vm_compute; discriminate|reflexivity|reflexivity
               |reflexivity|discriminate].
Defined.

(** ** The namespace table is write-only *)

Section WriteOnly.

Variable bv : xmlBuilder -> Value -> XMLNode -> string -> Result.
Hypothesis bv_tree :
  forall b b' value current tag,
    tree (bv b value current tag) = tree (bv b' value current tag).

Lemma forEach_atIndex_tree value xname idxs current b b' :
  tree (forEach (atIndex value (buildItem bv xname)) idxs (current, b))
  = tree (forEach (atIndex value (buildItem bv xname)) idxs (current, b')).
Proof.
  revert current b b'. induction idxs as [|i idxs IH]; intros current b b';
    cbn [forEach]; [done|].
  unfold atIndex at 1 3. destruct (Index value i) as [item|]; [|done].
  unfold buildItem at 1 3.
  pose proof (bv_tree b b' item (NewXMLElement xname) "") as H.
  destruct (bv b item (NewXMLElement xname) "") as [[c1 b1] [e|]| |],
           (bv b' item (NewXMLElement xname) "") as [[c2 b2] [e'|]| |];
    simpl in H; try done.
  - by injection H as -> ->.
  - injection H as ->. apply IH.
Qed.

Lemma buildList_tree b b' value current tag :
  tree (buildList bv b value current tag) = tree (buildList bv b' value current tag).
Proof.
  unfold buildList, forRange. destruct (Len value) as [n|]; [|done].
  destruct (nonempty _); [apply forEach_atIndex_tree|].
  pose proof (forEach_atIndex_tree value (xml.mkName "" (itemName tag)) (seq 0 n)
                (NewXMLElement (xml.mkName "" (StructTag.Get tag "locationName"))) b b')
    as H.
  destruct (forEach _ _ (_, b)) as [[l1 b1] e| |],
           (forEach _ _ (_, b')) as [[l2 b2] e'| |]; simpl in H; try done.
  by injection H as -> ->.
Qed.

Lemma forEach_buildField_tree value idxs child b b' fa :
  fieldsTree (forEach (buildField bv value) idxs (child, b, fa))
  = fieldsTree (forEach (buildField bv value) idxs (child, b', fa)).
Proof.
  revert child b b' fa. induction idxs as [|i idxs IH]; intros child b b' fa;
    cbn [forEach]; [done|].
  unfold buildField at 1 3. destruct (Field value i) as [[field fvalue]|]; [|done].
  unfold buildMember.
  destruct (unexported _) as [[|]|]; [apply IH| |done].
  destruct (nonempty _); [apply IH|].
  pose proof (bv_tree b b' (elemOf fvalue) child (memberTag field)) as H.
  destruct (bv b (elemOf fvalue) child (memberTag field)) as [[c1 b1] [e|]| |],
           (bv b' (elemOf fvalue) child (memberTag field)) as [[c2 b2] [e'|]| |];
    simpl in H; try done.
  - by injection H as -> ->.
  - injection H as ->. apply IH.
Qed.

Lemma buildMembers_tree b b' value current tag :
  tree (buildMembers bv b value current tag) = tree (buildMembers bv b' value current tag).
Proof.
  unfold buildMembers, forRange.
  destruct (NumField value) as [n|] eqn:En.
  - destruct (nonempty (StructTag.Get tag "xmlURI"));
      [destruct (nonempty (StructTag.Get tag "xmlPrefix"))|];
      match goal with
      | |- tree (match forEach _ ?l (?c, ?b1, _) with _ => _ end)
           = tree (match forEach _ _ (_, ?b2, _) with _ => _ end) =>
        pose proof (forEach_buildField_tree value l c b1 b2 false) as H
      end;
      destruct (forEach _ _ _) as [[[c1 b1] fa] [e|]| |],
               (forEach _ _ _) as [[[c2 b2] fa'] [e'|]| |];
      simpl in H; try done;
      try (by injection H as _ _ ->);
      injection H as -> ->; by destruct fa'.
  - by destruct (nonempty _); [destruct (nonempty _)|].
Qed.

Lemma buildStruct_tree b b' value current tag :
  tree (buildStruct bv b value current tag) = tree (buildStruct bv b' value current tag).
Proof.
  unfold buildStruct. destruct (IsValid value); [|done]. cbn [negb].
  destruct (nonempty _); [|apply buildMembers_tree].
  destruct (TypeFieldByName _ _); [|done]. destruct (FieldByName _ _); [|done].
  destruct (IsValid _); [|done]. apply buildMembers_tree.
Qed.

End WriteOnly.

Lemma buildValue_tree fuel b b' value current tag :
  tree (buildValue fuel b value current tag) = tree (buildValue fuel b' value current tag).
Proof.
  revert b b' value current tag.
  induction fuel as [|fuel IH]; intros b b' value current tag; [done|].
  dispatch; try done.
  - by apply buildStruct_tree.
  - by apply buildList_tree.
  - unfold buildScalar. destruct (IsValid _); [|done]. cbn [negb].
    destruct (scalarText _); [|done]. by destruct (nonempty _).
Qed.

(** X12: the builder writes to its namespace table and never reads it.
    Whatever the table holds when a value is built, the build leaves the
    same tree and returns the same error (or panics alike); so a prefix
    that is already registered is declared again, and the element
    [BuildXML] serializes is the one any builder would have built. *)
Theorem X12_namespace_table_is_never_read fuel b b' value current tag :
  tree (buildValue fuel b value current tag) = tree (buildValue fuel b' value current tag)
  /\ tree (buildStruct (buildValue fuel) b value current tag)
     = tree (buildStruct (buildValue fuel) b' value current tag)
  /\ tree (buildList (buildValue fuel) b value current tag)
     = tree (buildList (buildValue fuel) b' value current tag)
  /\ (forall current' b1 err,
        buildValue fuel b value current tag = Returned (current', b1) err ->
        exists b1', buildValue fuel b' value current tag = Returned (current', b1') err).
Proof.
  split; [apply buildValue_tree|].
  split; [apply buildStruct_tree; intros; apply buildValue_tree|].
  split; [apply buildList_tree; intros; apply buildValue_tree|].
  intros current' b1 err H.
  pose proof (buildValue_tree fuel b b' value current tag) as Ht. rewrite H in Ht.
  destruct (buildValue fuel b' value current tag) as [[c2 b2] e2| |]; try done.
  injection Ht as -> ->. by exists b2.
Qed.

Lemma X12_namespace_table_is_never_read_witness :
  exists b1',
    buildValue 2 usedBuilder (VStruct "Input" [(mkField "Name" "", VString "n")])
      emptyRoot prefixedTag
    = Returned
        (AddChild emptyRoot
           (mkXMLNode (xml.mkName "" "")
              [("Name", [mkXMLNode (xml.mkName "" "Name") [] "n" []])] ""
              [xml.mkAttr (xml.mkName "" "xmlns:p") "u"]), b1') None.
Proof.
  apply (proj2 (proj2 (proj2 (X12_namespace_table_is_never_read 2 newBuilder usedBuilder
           (VStruct "Input" [(mkField "Name" "", VString "n")]) emptyRoot prefixedTag)))
         _ (mkBuilder (<["p" := "u"]> ∅)) None).
  vm_compute. reflexivity.
Defined.

(** ** A structure of scalars *)

Lemma buildMember_scalar fuel f str child b fa :
  scalarMember f str ->
  buildMember (buildValue (S fuel)) f (child, b, fa)
  = Returned (AddChild child (textLeaf f str), b, true) None.
Proof.
  destruct f as [field fvalue].
  intros (Hx & Hp & Hloc & Hty & Hattr & Hname & Hk & Hs). cbn [fst snd] in *.
  unfold buildMember. rewrite Hx.
  assert (StructTag.Get (FieldTag field) "location" = "") as ->.
  { unfold StructTag.Get, StructTag.Lookup. by rewrite Hloc. }
  cbn [nonempty String.eqb negb].
  assert (IsValid (elemOf fvalue) = true) as Hv by (by destruct (elemOf fvalue)).
  rewrite buildValue_dispatch;
    [|by rewrite elemOf_idempotent|by apply memberTag_lacks].
  cbv zeta. rewrite elemOf_idempotent.
  rewrite resolveType_untyped by (by apply memberTag_lacks).
  unfold scalarKind in Hk.
  assert (match KindOf (elemOf fvalue) with
          | Struct => "structure" | Slice => "list" | Map => "map" | _ => ""
          end = "") as -> by (by destruct (KindOf (elemOf fvalue))).
  cbn [String.eqb]. unfold buildScalar. rewrite Hv, Hs. cbn [negb].
  rewrite (memberTag_lacks field "xmlAttribute") by done.
  cbn [nonempty String.eqb negb]. by rewrite memberTag_name.
Qed.

Lemma forEach_buildMember_scalars fuel fields strs child b fa :
  Forall2 scalarMember fields strs ->
  forEach (buildMember (buildValue (S fuel))) fields (child, b, fa)
  = Returned (foldl AddChild child (zip_with textLeaf fields strs), b,
              match fields with [] => fa | _ :: _ => true end) None.
Proof.
  intros Hall. revert child fa.
  induction Hall as [|f str fields strs Hf Hall IH]; intros child fa; [done|].
  cbn [forEach]. rewrite (buildMember_scalar fuel f str) by done.
  rewrite IH. cbn [zip_with foldl]. by destruct fields.
Qed.

(** X13: a structure whose fields are all scalar members (exported,
    plainly named, with tags that name no location, type, attribute
    placement or name, and holding scalars, maybe behind pointers) is
    built, under a tag without payload and name space, into one element
    named by the [locationName] of the tag and attached to the parent,
    whose children are one text leaf per field, named as the field and
    holding the text of its value, added in the order of the fields.  The
    builder is left as it was. *)
Theorem X13_structure_of_scalars fuel b tname fields strs current tag :
  StructTag.Get tag "payload" = "" ->
  StructTag.Get tag "xmlURI" = "" ->
  fields <> [] ->
  Forall2 scalarMember fields strs ->
  buildStruct (buildValue (S fuel)) b (VStruct tname fields) current tag
  = Returned
      (AddChild current
         (foldl AddChild (NewXMLElement (xml.mkName "" (StructTag.Get tag "locationName")))
                (zip_with textLeaf fields strs)), b) None.
Proof.
  intros Hp Hu Hne Hall. unfold buildStruct. cbn [IsValid negb]. rewrite Hp.
  cbn [nonempty String.eqb negb]. unfold buildMembers. rewrite Hu.
  cbn [nonempty String.eqb negb NumField fieldsOf].
  rewrite forRange_fields, (forEach_buildMember_scalars fuel fields strs) by done.
  by destruct fields.
Qed.

Lemma X13_structure_of_scalars_witness :
  buildStruct (buildValue 1) newBuilder
    (VStruct "Input" [(mkField "Name" "", VPtr (VString "n"));
                      (mkField "Size" (kv "min" "1"), VInteger int64 7)])
    emptyRoot (kv "locationName" "Input")
  = Returned
      (AddChild emptyRoot
         (mkXMLNode (xml.mkName "" "Input")
            [("Name", [mkXMLNode (xml.mkName "" "Name") [] "n" []]);
             ("Size", [mkXMLNode (xml.mkName "" "Size") [] "7" []])] "" []),
       newBuilder) None.
Proof.
  refine (X13_structure_of_scalars 0 newBuilder "Input"
            [(mkField "Name" "", VPtr (VString "n"));
             (mkField "Size" (kv "min" "1"), VInteger int64 7)] ["n"; "7"]
            emptyRoot (kv "locationName" "Input") eq_refl eq_refl _ _).
  - discriminate.
  - repeat (apply List.Forall2_cons; [repeat split; reflexivity|]).
    apply List.Forall2_nil.
Defined.
